(** * Presence console: the STOMP client logic of [app/page.tsx]

    The console is a React component ([Home]) holding a handful of state
    cells, two refs ([clientRef], [roomSubscriptionRef]) and a set of event
    handlers that talk to a STOMP broker through [@stomp/stompjs].

    The embedding keeps the three kinds of storage apart, because the
    handlers treat them differently:
    - state cells ([useState]) are read through the snapshot of the render
      that created the handler and written through their setters;
    - refs ([useRef]) are shared mutable cells, read and written in place;
    - the STOMP clients are heap objects, reached both through [clientRef]
      and through the closures handed to the client at construction.

    Everything the handlers ask of the transport is appended to a wire log,
    so that "subscribes to", "publishes" and "closes the subscription" are
    statements about that log.

    The presence engine on the other side of the broker is not part of the
    sources.  The second half of the definitions writes its Registry,
    Directory and session transitions from the specification, and the
    properties stated about the engine are properties of that model. *)

From stdpp Require Import base strings list gmap pretty.
From Stdlib Require Import ZArith Lia.

Set Warnings "-register-all,-clear-no-such-hyp".
Open Scope string_scope.
Open Scope list_scope.

(** ** Values exchanged with the broker *)

(** [MessageType] of the source. *)
Inductive MessageType : Type :=
| JOIN | LEAVE | PING | SYSTEM | ROOM_PRESENCE | ONLINE_USERS.

Definition MessageType_name (t : MessageType) : string :=
  match t with
  | JOIN => "JOIN"
  | LEAVE => "LEAVE"
  | PING => "PING"
  | SYSTEM => "SYSTEM"
  | ROOM_PRESENCE => "ROOM_PRESENCE"
  | ONLINE_USERS => "ONLINE_USERS"
  end.

(** A JSON value, as produced by [JSON.parse] and consumed by
    [JSON.stringify].  Numbers are kept as integers: the console never
    computes with the numbers it receives. *)
Inductive json : Type :=
| JNull
| JBool (b : bool)
| JNum (z : Z)
| JStr (s : string)
| JArr (items : list json)
| JObj (members : list (string * json)).

(** An optional property of a JavaScript object: the key can be missing,
    present with the value [undefined], or present with a value.  The
    difference matters for object spread (an own property holding
    [undefined] still overrides) and for [JSON.stringify] (which drops
    it). *)
Inductive prop (A : Type) : Type :=
| Absent
| Undefined
| Present (a : A).
Arguments Absent {A}.
Arguments Undefined {A}.
Arguments Present {A} a.

(** [WireMessage] of the source: [type] is required, every other field is
    optional. *)
Module Wire.
Record WireMessage : Type := mk {
  type : MessageType;
  roomId : prop string;
  userId : prop string;
  username : prop string;
  content : prop string;
  data : prop json;
  timestamp : prop string
}.

(** The object literal [{ type: t }]. *)
Definition only_type (t : MessageType) : WireMessage :=
  mk t Absent Absent Absent Absent Absent Absent.
End Wire.
Abbreviation WireMessage := Wire.WireMessage.

(** [{ ...defaults, ...body }] on one property: an own property of [body]
    wins, whatever it holds. *)
Definition spread_prop {A} (dflt body : prop A) : prop A :=
  match body with
  | Absent => dflt
  | _ => body
  end.

(** The members [JSON.stringify] writes for one property. *)
Definition json_member {A} (key : string) (enc : A -> json) (p : prop A)
  : list (string * json) :=
  match p with
  | Present a => [(key, enc a)]
  | _ => []
  end.

(** [JSON.stringify] of a [WireMessage]-shaped object, as the list of
    members of the resulting JSON object (the text itself, with its string
    escapes, is not modelled).  Members appear in the order the object
    literal of [sendMessage] creates them. *)
Definition JSON_stringify (m : WireMessage) : list (string * json) :=
  json_member "roomId" JStr (Wire.roomId m)
  ++ json_member "userId" JStr (Wire.userId m)
  ++ json_member "username" JStr (Wire.username m)
  ++ [("type", JStr (MessageType_name (Wire.type m)))]
  ++ json_member "content" JStr (Wire.content m)
  ++ json_member "data" (fun j => j) (Wire.data m)
  ++ json_member "timestamp" JStr (Wire.timestamp m).

(** Reading a member of a JSON object. *)
Fixpoint json_field (key : string) (members : list (string * json)) : option json :=
  match members with
  | [] => None
  | (k, v) :: rest => if String.eqb k key then Some v else json_field key rest
  end.

(** JavaScript truthiness, for the [if (payload.data)] and
    [if (payload.content)] tests of the message callbacks. *)
Definition json_truthy (j : json) : bool :=
  match j with
  | JNull => false
  | JBool b => b
  | JNum z => negb (Z.eqb z 0)
  | JStr s => negb (String.eqb s "")
  | JArr _ => true
  | JObj _ => true
  end.

Definition prop_truthy {A} (truthy : A -> bool) (p : prop A) : bool :=
  match p with
  | Present a => truthy a
  | _ => false
  end.

Definition string_truthy (s : string) : bool := negb (String.eqb s "").

(** ** The component's state cells *)

(** The two revisions of the page under [src/]: [app/page.tsx], and the
    unnamed earlier revision.  They differ in the initial [username] and in
    the room-topic callback, which in the earlier revision does not look at
    [ROOM_PRESENCE] broadcasts.  Every other handler is the same text. *)
Inductive Revision : Type := PageTsx | EarlierPage.

Inductive Status : Type := Disconnected | Connecting | Connected.
Inductive Tab : Type := TabRoom | TabGlobal | TabLogs.

(** One line of the activity log ([logs] state). *)
Record LogEntry : Type := {
  log_content : string;
  log_roomId : option string;
  log_timestamp : string
}.

(** The [useState] cells of [Home], one field per cell.  [presence],
    [onlineUsers] and [stats] hold whatever the broker sent, cast unchecked
    by the source; [null] and [undefined] are both [None]. *)
Record State : Type := {
  wsUrl : string;
  userId : string;
  username : string;
  roomId : string;
  status : Status;
  presence : option json;
  onlineUsers : list json;
  logs : list LogEntry;
  stats : option json;
  error : option string;
  lastPing : option string;
  nowTs : Z;
  activeTab : Tab
}.

Definition with_username (v : string) (s : State) : State :=
  {| wsUrl := wsUrl s; userId := userId s; username := v; roomId := roomId s;
     status := status s; presence := presence s; onlineUsers := onlineUsers s;
     logs := logs s; stats := stats s; error := error s;
     lastPing := lastPing s; nowTs := nowTs s; activeTab := activeTab s |}.

Definition with_roomId (v : string) (s : State) : State :=
  {| wsUrl := wsUrl s; userId := userId s; username := username s; roomId := v;
     status := status s; presence := presence s; onlineUsers := onlineUsers s;
     logs := logs s; stats := stats s; error := error s;
     lastPing := lastPing s; nowTs := nowTs s; activeTab := activeTab s |}.

Definition with_status (v : Status) (s : State) : State :=
  {| wsUrl := wsUrl s; userId := userId s; username := username s;
     roomId := roomId s; status := v; presence := presence s;
     onlineUsers := onlineUsers s; logs := logs s; stats := stats s;
     error := error s; lastPing := lastPing s; nowTs := nowTs s;
     activeTab := activeTab s |}.

Definition with_presence (v : option json) (s : State) : State :=
  {| wsUrl := wsUrl s; userId := userId s; username := username s;
     roomId := roomId s; status := status s; presence := v;
     onlineUsers := onlineUsers s; logs := logs s; stats := stats s;
     error := error s; lastPing := lastPing s; nowTs := nowTs s;
     activeTab := activeTab s |}.

Definition with_onlineUsers (v : list json) (s : State) : State :=
  {| wsUrl := wsUrl s; userId := userId s; username := username s;
     roomId := roomId s; status := status s; presence := presence s;
     onlineUsers := v; logs := logs s; stats := stats s;
     error := error s; lastPing := lastPing s; nowTs := nowTs s;
     activeTab := activeTab s |}.

Definition with_logs (v : list LogEntry) (s : State) : State :=
  {| wsUrl := wsUrl s; userId := userId s; username := username s;
     roomId := roomId s; status := status s; presence := presence s;
     onlineUsers := onlineUsers s; logs := v; stats := stats s;
     error := error s; lastPing := lastPing s; nowTs := nowTs s;
     activeTab := activeTab s |}.

Definition with_stats (v : option json) (s : State) : State :=
  {| wsUrl := wsUrl s; userId := userId s; username := username s;
     roomId := roomId s; status := status s; presence := presence s;
     onlineUsers := onlineUsers s; logs := logs s; stats := v;
     error := error s; lastPing := lastPing s; nowTs := nowTs s;
     activeTab := activeTab s |}.

Definition with_error (v : option string) (s : State) : State :=
  {| wsUrl := wsUrl s; userId := userId s; username := username s;
     roomId := roomId s; status := status s; presence := presence s;
     onlineUsers := onlineUsers s; logs := logs s; stats := stats s;
     error := v; lastPing := lastPing s; nowTs := nowTs s;
     activeTab := activeTab s |}.

Definition with_lastPing (v : option string) (s : State) : State :=
  {| wsUrl := wsUrl s; userId := userId s; username := username s;
     roomId := roomId s; status := status s; presence := presence s;
     onlineUsers := onlineUsers s; logs := logs s; stats := stats s;
     error := error s; lastPing := v; nowTs := nowTs s;
     activeTab := activeTab s |}.

Definition with_nowTs (v : Z) (s : State) : State :=
  {| wsUrl := wsUrl s; userId := userId s; username := username s;
     roomId := roomId s; status := status s; presence := presence s;
     onlineUsers := onlineUsers s; logs := logs s; stats := stats s;
     error := error s; lastPing := lastPing s; nowTs := v;
     activeTab := activeTab s |}.

Definition with_activeTab (v : Tab) (s : State) : State :=
  {| wsUrl := wsUrl s; userId := userId s; username := username s;
     roomId := roomId s; status := status s; presence := presence s;
     onlineUsers := onlineUsers s; logs := logs s; stats := stats s;
     error := error s; lastPing := lastPing s; nowTs := nowTs s;
     activeTab := v |}.

(** The cells as [useState] initialises them; [randomId] and [Date.now]
    are supplied by the caller, [defaultWs] is the fallback URL. *)
Definition defaultWs : string := "http://localhost:8080/ws-presence".

Definition initialUsername (rev : Revision) : string :=
  match rev with
  | PageTsx => "Thomas Abas"
  | EarlierPage => "Nova Collins"
  end.

Definition initialState (rev : Revision) (randomId : string) (now : Z) : State :=
  {| wsUrl := defaultWs; userId := randomId; username := initialUsername rev;
     roomId := "mission-control"; status := Disconnected; presence := None;
     onlineUsers := []; logs := []; stats := None; error := None;
     lastPing := None; nowTs := now; activeTab := TabRoom |}.

(** ** The STOMP client ([@stomp/stompjs]) as the console uses it

    The library is an external dependency.  Its interface is modelled by
    its documented contract: [subscribe] and [publish] raise a [TypeError]
    on a client without an underlying STOMP connection, [unsubscribe],
    [activate] and [deactivate] do not raise.  Every request is recorded
    on the wire log. *)

(** The four message callbacks the console registers. *)
Inductive Callback : Type :=
| OnRoomPresenceQueue
| OnOnlineUsersQueue
| OnSystemStatsQueue
| OnRoomTopic.

(** A [StompSubscription]: the client it belongs to and its id.  Ids are
    opaque tokens; they are drawn from one counter. *)
Record StompSubscription : Type := {
  sub_client : nat;
  sub_id : nat
}.

(** A [Client] object.  [render] is the snapshot of the state cells its
    [onConnect], [onStompError], [onWebSocketError] and [webSocketFactory]
    closures were created in: a closure keeps reading the cells of that
    render, whatever the cells hold later. *)
Record Client : Type := {
  reconnectDelay : Z;
  render : State;
  active : bool;
  connected : bool
}.

Definition with_active (b : bool) (c : Client) : Client :=
  {| reconnectDelay := reconnectDelay c; render := render c;
     active := b; connected := connected c |}.

Definition with_connected (b : bool) (c : Client) : Client :=
  {| reconnectDelay := reconnectDelay c; render := render c;
     active := active c; connected := b |}.

(** What reaches the transport. *)
Inductive Action : Type :=
| Activate (client : nat)
| Deactivate (client : nat)
| Subscribe (client : nat) (id : nat) (destination : string) (cb : Callback)
| Unsubscribe (sub : StompSubscription)
| Publish (client : nat) (destination : string) (body : list (string * json)).

(** Everything a handler can read or write: the pending values of the state
    cells, the two refs, the client objects (addressed by position) and the
    wire log. *)
Record World : Type := {
  ui : State;
  clientRef : option nat;
  roomSubscriptionRef : option StompSubscription;
  heap : list Client;
  nextSubscription : nat;
  wire : list Action
}.

Definition with_ui (f : State -> State) (w : World) : World :=
  {| ui := f (ui w); clientRef := clientRef w;
     roomSubscriptionRef := roomSubscriptionRef w; heap := heap w;
     nextSubscription := nextSubscription w; wire := wire w |}.

Definition with_clientRef (v : option nat) (w : World) : World :=
  {| ui := ui w; clientRef := v;
     roomSubscriptionRef := roomSubscriptionRef w; heap := heap w;
     nextSubscription := nextSubscription w; wire := wire w |}.

Definition with_roomSubscriptionRef (v : option StompSubscription) (w : World)
  : World :=
  {| ui := ui w; clientRef := clientRef w; roomSubscriptionRef := v;
     heap := heap w; nextSubscription := nextSubscription w; wire := wire w |}.

Definition with_heap (h : list Client) (w : World) : World :=
  {| ui := ui w; clientRef := clientRef w;
     roomSubscriptionRef := roomSubscriptionRef w; heap := h;
     nextSubscription := nextSubscription w; wire := wire w |}.

Definition with_nextSubscription (n : nat) (w : World) : World :=
  {| ui := ui w; clientRef := clientRef w;
     roomSubscriptionRef := roomSubscriptionRef w; heap := heap w;
     nextSubscription := n; wire := wire w |}.

Definition emit (a : Action) (w : World) : World :=
  {| ui := ui w; clientRef := clientRef w;
     roomSubscriptionRef := roomSubscriptionRef w; heap := heap w;
     nextSubscription := nextSubscription w; wire := wire w ++ [a] |}.

(** The world of a freshly mounted component. *)
Definition mount (rev : Revision) (randomId : string) (now : Z) : World :=
  {| ui := initialState rev randomId now; clientRef := None;
     roomSubscriptionRef := None; heap := []; nextSubscription := 0;
     wire := [] |}.

(** A handler either returns or raises; in both cases the writes it made
    so far stay. *)
Inductive Outcome (A : Type) : Type :=
| Returned (a : A) (w : World)
| Thrown (exn : string) (w : World).
Arguments Returned {A} a w.
Arguments Thrown {A} exn w.

Definition Handler (A : Type) : Type := World -> Outcome A.

Definition ret {A} (a : A) : Handler A := fun w => Returned a w.

Definition bind {A B} (h : Handler A) (k : A -> Handler B) : Handler B :=
  fun w =>
    match h w with
    | Returned a w' => k a w'
    | Thrown e w' => Thrown e w'
    end.

Definition throw {A} (exn : string) : Handler A := fun w => Thrown exn w.

Definition modify (f : World -> World) : Handler unit :=
  fun w => Returned tt (f w).

Definition world_of {A} (o : Outcome A) : World :=
  match o with
  | Returned _ w => w
  | Thrown _ w => w
  end.

Definition returned {A} (o : Outcome A) : bool :=
  match o with
  | Returned _ _ => true
  | Thrown _ _ => false
  end.

Declare Scope handler_scope.
Delimit Scope handler_scope with handler.
Notation "x <- h ;; k" := (bind h (fun x => k))
  (at level 100, h at next level, right associativity) : handler_scope.
Notation "h ;; k" := (bind h (fun _ => k))
  (at level 100, right associativity) : handler_scope.
Open Scope handler_scope.

Module Stomp.

Definition no_connection : string := "There is no underlying STOMP connection".

(** [client.connected]. *)
Definition is_connected (client : nat) (w : World) : bool :=
  match heap w !! client with
  | Some c => connected c
  | None => false
  end.

(** [new Client({ reconnectDelay, webSocketFactory, onStompError,
    onWebSocketError, onConnect })], the closures being those of the
    render [r]. *)
Definition new_Client (delay : Z) (r : State) : Handler nat :=
  fun w =>
    Returned (length (heap w))
      (with_heap (heap w ++ [{| reconnectDelay := delay; render := r;
                                active := false; connected := false |}]) w).

Definition activate (client : nat) : Handler unit :=
  modify (fun w =>
    emit (Activate client)
      (with_heap (alter (with_active true) client (heap w)) w)).

Definition deactivate (client : nat) : Handler unit :=
  modify (fun w =>
    emit (Deactivate client)
      (with_heap
         (alter (fun c => with_connected false (with_active false c))
            client (heap w)) w)).

Definition subscribe (client : nat) (destination : string) (cb : Callback)
  : Handler StompSubscription :=
  fun w =>
    if is_connected client w then
      Returned {| sub_client := client; sub_id := nextSubscription w |}
        (emit (Subscribe client (nextSubscription w) destination cb)
           (with_nextSubscription (S (nextSubscription w)) w))
    else Thrown no_connection w.

Definition unsubscribe (sub : StompSubscription) : Handler unit :=
  modify (emit (Unsubscribe sub)).

Definition publish (client : nat) (destination : string)
    (body : list (string * json)) : Handler unit :=
  fun w =>
    if is_connected client w then
      Returned tt (emit (Publish client destination body) w)
    else Thrown no_connection w.

End Stomp.

(** [connectionReady] of the render [r]: [status === "connected"]. *)
Definition connectionReady (r : State) : bool :=
  match status r with
  | Connected => true
  | _ => false
  end.

(** ** The handlers of [Home]

    A handler that reads a state cell takes the render snapshot [r] it was
    created in; setters and refs act on the world. *)

Definition setStatus (v : Status) : Handler unit := modify (with_ui (with_status v)).
Definition setPresence (v : option json) : Handler unit := modify (with_ui (with_presence v)).
Definition setOnlineUsers (v : list json) : Handler unit := modify (with_ui (with_onlineUsers v)).
Definition setStats (v : option json) : Handler unit := modify (with_ui (with_stats v)).
Definition setError (v : option string) : Handler unit := modify (with_ui (with_error v)).
Definition setLastPing (v : option string) : Handler unit := modify (with_ui (with_lastPing v)).
Definition setNowTs (v : Z) : Handler unit := modify (with_ui (with_nowTs v)).
Definition setActiveTab (v : Tab) : Handler unit := modify (with_ui (with_activeTab v)).
Definition setUsername (v : string) : Handler unit := modify (with_ui (with_username v)).
Definition setRoomId (v : string) : Handler unit := modify (with_ui (with_roomId v)).

(** [setLogs(prev => ...)]: the updater runs on the pending value. *)
Definition setLogs (f : list LogEntry -> list LogEntry) : Handler unit :=
  modify (with_ui (fun s => with_logs (f (logs s)) s)).

(** The argument of [addLog]. *)
Record LogInput : Type := {
  in_content : string;
  in_roomId : option string;
  in_timestamp : option string
}.

(** The entry [addLog] builds; [now] is [new Date().toISOString()]. *)
Definition logEntry (now : string) (entry : LogInput) : LogEntry :=
  {| log_content := in_content entry;
     log_roomId := in_roomId entry;
     log_timestamp := default now (in_timestamp entry) |}.

(** The updater of [addLog]: [[entry, ...prev].slice(0, 30)]. *)
Definition pushLog (now : string) (entry : LogInput) (prev : list LogEntry)
  : list LogEntry :=
  take 30 (logEntry now entry :: prev).

Definition addLog (now : string) (entry : LogInput) : Handler unit :=
  setLogs (pushLog now entry).

Definition disconnect : Handler unit :=
  fun w =>
    (match roomSubscriptionRef w with
     | Some sub => Stomp.unsubscribe sub
     | None => ret tt
     end;;
     modify (with_roomSubscriptionRef None);;
     (fun w1 =>
        match clientRef w1 with
        | Some client => Stomp.deactivate client w1
        | None => ret tt w1
        end);;
     modify (with_clientRef None);;
     setStatus Disconnected;;
     setPresence None) w.

Definition subscribeCoreRoutes (client : nat) : Handler unit :=
  _ <- Stomp.subscribe client "/user/queue/room-presence" OnRoomPresenceQueue;;
  _ <- Stomp.subscribe client "/user/queue/online-users" OnOnlineUsersQueue;;
  _ <- Stomp.subscribe client "/user/queue/system-stats" OnSystemStatsQueue;;
  ret tt.

(** The destination [`/topic/room/${room}`]. *)
Definition roomTopic (room : string) : string := "/topic/room/" +:+ room.

(** [subscribeRoom(client, room)].  [client] is optional because
    [switchRoom] passes [clientRef.current!]: on [null] the call of
    [client.subscribe] raises. *)
Definition subscribeRoom (client : option nat) (room : string) : Handler unit :=
  fun w =>
    (match roomSubscriptionRef w with
     | Some sub => Stomp.unsubscribe sub
     | None => ret tt
     end;;
     sub <- match client with
            | Some c => Stomp.subscribe c (roomTopic room) OnRoomTopic
            | None => throw "TypeError: client is null"
            end;;
     modify (with_roomSubscriptionRef (Some sub))) w.

(** The object literal [{ roomId, userId, username, ...body }]. *)
Definition outgoing (r : State) (body : WireMessage) : WireMessage :=
  {| Wire.type := Wire.type body;
     Wire.roomId := spread_prop (Present (roomId r)) (Wire.roomId body);
     Wire.userId := spread_prop (Present (userId r)) (Wire.userId body);
     Wire.username := spread_prop (Present (username r)) (Wire.username body);
     Wire.content := Wire.content body;
     Wire.data := Wire.data body;
     Wire.timestamp := Wire.timestamp body |}.

Definition connect_first : string := "Connect first to send messages.".

Definition sendMessage (r : State) (destination : string) (body : WireMessage)
  : Handler unit :=
  fun w =>
    match clientRef w with
    | Some client =>
        if Stomp.is_connected client w then
          Stomp.publish client destination (JSON_stringify (outgoing r body)) w
        else setError (Some connect_first) w
    | None => setError (Some connect_first) w
    end.

Definition requestPresence (r : State) : Handler unit :=
  sendMessage r "/app/room/presence" (Wire.only_type ROOM_PRESENCE).
Definition requestOnline (r : State) : Handler unit :=
  sendMessage r "/app/users/online" (Wire.only_type ONLINE_USERS).
Definition requestStats (r : State) : Handler unit :=
  sendMessage r "/app/system/stats" (Wire.only_type SYSTEM).

(** The [onConnect] closure built by [connectAndJoin] in render [r] for the
    client [client]. *)
Definition onConnect (r : State) (client : nat) (now : string) : Handler unit :=
  setStatus Connected;;
  setError None;;
  subscribeCoreRoutes client;;
  subscribeRoom (Some client) (roomId r);;
  sendMessage r "/app/join" (Wire.only_type JOIN);;
  requestPresence r;;
  requestOnline r;;
  requestStats r;;
  addLog now {| in_content := "Joined room " +:+ roomId r;
                in_roomId := Some (roomId r);
                in_timestamp := None |}.

(** [onStompError]: [message] is [frame.headers["message"]]. *)
Definition onStompError (message : option string) : Handler unit :=
  setError (Some (default "Broker error" message));;
  setStatus Disconnected.

Definition onWebSocketError : Handler unit :=
  setError (Some "WebSocket connection failed");;
  setStatus Disconnected.

Definition connectAndJoin (r : State) : Handler unit :=
  match status r with
  | Connecting => ret tt
  | _ =>
      disconnect;;
      setError None;;
      setStatus Connecting;;
      client <- Stomp.new_Client 5000 r;;
      Stomp.activate client;;
      modify (with_clientRef (Some client))
  end.

Definition sendPing (r : State) (now : string) : Handler unit :=
  sendMessage r "/app/ping" (Wire.only_type PING);;
  setLastPing (Some now).

Definition leaveRoom (r : State) (now : string) : Handler unit :=
  sendMessage r "/app/leave" (Wire.only_type LEAVE);;
  setPresence None;;
  addLog now {| in_content := "Left room " +:+ roomId r;
                in_roomId := None;
                in_timestamp := None |}.

Definition switch_first : string := "Connect first, then switch rooms.".

Definition switchRoom (r : State) (now : string) : Handler unit :=
  if connectionReady r then
    (fun w => subscribeRoom (clientRef w) (roomId r) w);;
    sendMessage r "/app/join" (Wire.only_type JOIN);;
    requestPresence r;;
    addLog now {| in_content := "Moved to " +:+ roomId r;
                  in_roomId := None;
                  in_timestamp := None |}
  else setError (Some switch_first).

(** ** Message callbacks

    [payload] is the result of [JSON.parse(message.body)], read through the
    [WireMessage] type as the source does. *)

Definition MessageType_eqb (a b : MessageType) : bool :=
  match a, b with
  | JOIN, JOIN | LEAVE, LEAVE | PING, PING | SYSTEM, SYSTEM
  | ROOM_PRESENCE, ROOM_PRESENCE | ONLINE_USERS, ONLINE_USERS => true
  | _, _ => false
  end.

Definition prop_to_option {A} (p : prop A) : option A :=
  match p with
  | Present a => Some a
  | _ => None
  end.

(** A value stored in a nullable cell: JSON [null] is [None]. *)
Definition nullable (p : prop json) : option json :=
  match p with
  | Present JNull => None
  | Present j => Some j
  | _ => None
  end.

Definition onRoomPresenceQueue (payload : WireMessage) : Handler unit :=
  match Wire.data payload with
  | Present d => if json_truthy d then setPresence (Some d) else ret tt
  | _ => ret tt
  end.

Definition onOnlineUsersQueue (payload : WireMessage) : Handler unit :=
  match Wire.data payload with
  | Present (JArr items) => setOnlineUsers items
  | _ => ret tt
  end.

Definition onSystemStatsQueue (payload : WireMessage) : Handler unit :=
  setStats (nullable (Wire.data payload)).

Definition onRoomTopic (rev : Revision) (now : string) (payload : WireMessage)
  : Handler unit :=
  match rev, Wire.data payload with
  | PageTsx, Present d =>
      if MessageType_eqb (Wire.type payload) ROOM_PRESENCE && json_truthy d
      then setPresence (Some d) else ret tt
  | _, _ => ret tt
  end;;
  match Wire.content payload with
  | Present c =>
      if string_truthy c
      then addLog now {| in_content := c;
                         in_roomId := prop_to_option (Wire.roomId payload);
                         in_timestamp := prop_to_option (Wire.timestamp payload) |}
      else ret tt
  | _ => ret tt
  end.

Definition deliver (rev : Revision) (cb : Callback) (now : string)
    (payload : WireMessage) : Handler unit :=
  match cb with
  | OnRoomPresenceQueue => onRoomPresenceQueue payload
  | OnOnlineUsersQueue => onOnlineUsersQueue payload
  | OnSystemStatsQueue => onSystemStatsQueue payload
  | OnRoomTopic => onRoomTopic rev now payload
  end.

(** ** What can happen to the mounted component

    User events run the handler of the latest render, that is, on the
    current value of the cells.  Broker events run the closures stored in
    the client, on the render they were created in; an inactive client
    raises no event.  [leaveRoom], [switchRoom] and the three request
    handlers are events too, although the markup of these revisions binds
    no control to them: whatever calls them is covered. *)
Inductive Event : Type :=
| TypeUsername (v : string)
| TypeRoomId (v : string)
| SelectTab (t : Tab)
| ClickConnect
| ClickDisconnect
| ClickPing (now : string)
| CallLeaveRoom (now : string)
| CallSwitchRoom (now : string)
| CallRequestPresence
| CallRequestOnline
| CallRequestStats
| BrokerConnected (client : nat) (now : string)
| BrokerError (client : nat) (message : option string)
| SocketError (client : nat)
| SocketClosed (client : nat)
| Message (cb : Callback) (now : string) (payload : WireMessage)
| TimerTick (now : Z)
| Unmount.

(** The library side of a broker event: it reaches the closures only for a
    client that exists and is active. *)
Definition on_active (client : nat) (k : Client -> Handler unit) : Handler unit :=
  fun w =>
    match heap w !! client with
    | Some c => if active c then k c w else Returned tt w
    | None => Returned tt w
    end.

Definition mark_connected (b : bool) (client : nat) : Handler unit :=
  modify (fun w => with_heap (alter (with_connected b) client (heap w)) w).

Definition handle (rev : Revision) (ev : Event) : Handler unit :=
  fun w =>
    match ev with
    | TypeUsername v => setUsername v w
    | TypeRoomId v => setRoomId v w
    | SelectTab t => setActiveTab t w
    | ClickConnect => connectAndJoin (ui w) w
    | ClickDisconnect => disconnect w
    | ClickPing now => sendPing (ui w) now w
    | CallLeaveRoom now => leaveRoom (ui w) now w
    | CallSwitchRoom now => switchRoom (ui w) now w
    | CallRequestPresence => requestPresence (ui w) w
    | CallRequestOnline => requestOnline (ui w) w
    | CallRequestStats => requestStats (ui w) w
    | BrokerConnected client now =>
        on_active client (fun c =>
          mark_connected true client;; onConnect (render c) client now) w
    | BrokerError client message =>
        on_active client (fun _ => onStompError message) w
    | SocketError client =>
        on_active client (fun _ => onWebSocketError) w
    | SocketClosed client =>
        on_active client (fun _ => mark_connected false client) w
    | Message cb now payload => deliver rev cb now payload w
    | TimerTick now => setNowTs now w
    | Unmount => disconnect w
    end.

(** An exception raised in a handler ends that handler; its writes stay. *)
Definition step (rev : Revision) (ev : Event) (w : World) : World :=
  world_of (handle rev ev w).

Definition run (rev : Revision) (evs : list Event) (w : World) : World :=
  fold_left (fun acc ev => step rev ev acc) evs w.

(** ** Vocabulary for the properties of the console *)

(** [h] keeps [I], whether it returns or raises. *)
Definition preserves (I : World -> Prop) {A} (h : Handler A) : Prop :=
  forall w, I w -> I (world_of (h w)).

(** The log after a series of [addLog] updaters, oldest call first. *)
Definition pushLogs (calls : list (string * LogInput)) (prev : list LogEntry)
  : list LogEntry :=
  fold_left (fun acc call => pushLog call.1 call.2 acc) calls prev.

(** The world after a series of [addLog] calls. *)
Definition addLogs (calls : list (string * LogInput)) (w : World) : World :=
  fold_left (fun acc call => world_of (addLog call.1 call.2 acc)) calls w.

(** The six application destinations of the wire contract. *)
Definition appDestinations : list string :=
  ["/app/join"; "/app/leave"; "/app/ping"; "/app/room/presence";
   "/app/users/online"; "/app/system/stats"].

(** The three per-connection queues. *)
Definition userQueues : list string :=
  ["/user/queue/room-presence"; "/user/queue/online-users";
   "/user/queue/system-stats"].

Definition has_field (key : string) (body : list (string * json)) : Prop :=
  is_Some (json_field key body).

(** A published frame is addressed to an application destination and names
    its sender, its room and its type. *)
Definition frame_addressed (a : Action) : Prop :=
  match a with
  | Publish _ destination body =>
      destination ∈ appDestinations
      /\ has_field "userId" body /\ has_field "username" body
      /\ has_field "roomId" body /\ has_field "type" body
  | _ => True
  end.

(** A published frame carries the user id [u]. *)
Definition frame_from (u : string) (a : Action) : Prop :=
  match a with
  | Publish _ _ body => json_field "userId" body = Some (JStr u)
  | _ => True
  end.

(** The frames of a stretch of the wire log, in order. *)
Definition published (log : list Action) : list (string * list (string * json)) :=
  omap (fun a => match a with
                 | Publish _ destination body => Some (destination, body)
                 | _ => None
                 end) log.

(** What every world reached from [mount] satisfies, for the user id [u]
    drawn at mount: the cell and every closure still hold [u], every client
    was built with the 5000 ms reconnect delay, the log is bounded, and
    every frame on the wire is well addressed and carries [u]. *)
Record Sound (u : string) (w : World) : Prop := {
  sound_userId : userId (ui w) = u;
  sound_logs : length (logs (ui w)) <= 30;
  sound_heap :
    Forall (fun c => userId (render c) = u /\ reconnectDelay c = 5000%Z) (heap w);
  sound_wire : Forall (fun a => frame_addressed a /\ frame_from u a) (wire w)
}.

(** The frame [sendMessage] publishes from render [r] for [{ type: t }]. *)
Definition frameOf (r : State) (t : MessageType) : list (string * json) :=
  JSON_stringify (outgoing r (Wire.only_type t)).

(** [client.connected] of the client held by [clientRef], [false] when the
    ref is [null]: the guard of [sendMessage]. *)
Definition canSend (w : World) : bool :=
  match clientRef w with
  | Some client => Stomp.is_connected client w
  | None => false
  end.

(** The request [subscribeRoom] starts with: close the subscription held by
    [roomSubscriptionRef], if any. *)
Definition closePrevious (w : World) : list Action :=
  match roomSubscriptionRef w with
  | Some sub => [Unsubscribe sub]
  | None => []
  end.

(** Every cell but [error] is the same in [s'] as in [s]. *)
Definition unchanged_but_error (s s' : State) : Prop :=
  wsUrl s' = wsUrl s /\ userId s' = userId s /\ username s' = username s
  /\ roomId s' = roomId s /\ status s' = status s /\ presence s' = presence s
  /\ onlineUsers s' = onlineUsers s /\ logs s' = logs s /\ stats s' = stats s
  /\ lastPing s' = lastPing s /\ nowTs s' = nowTs s
  /\ activeTab s' = activeTab s.

(** The refs and the client objects are the same in [w'] as in [w]. *)
Definition same_refs (w w' : World) : Prop :=
  clientRef w' = clientRef w
  /\ roomSubscriptionRef w' = roomSubscriptionRef w
  /\ heap w' = heap w.

(** What [onConnect] asks of the transport, for the closure of render [r]
    run on world [w]: the three queues, the room topic of [roomId r] (after
    closing a subscription left in [roomSubscriptionRef]), then JOIN and the
    three snapshot requests. *)
Definition connectRequests (r : State) (client : nat) (w : World) : list Action :=
  [Subscribe client (nextSubscription w)
     "/user/queue/room-presence" OnRoomPresenceQueue;
   Subscribe client (S (nextSubscription w))
     "/user/queue/online-users" OnOnlineUsersQueue;
   Subscribe client (S (S (nextSubscription w)))
     "/user/queue/system-stats" OnSystemStatsQueue]
  ++ closePrevious w
  ++ [Subscribe client (S (S (S (nextSubscription w))))
        ("/topic/room/" +:+ roomId r) OnRoomTopic;
      Publish client "/app/join" (frameOf r JOIN);
      Publish client "/app/room/presence" (frameOf r ROOM_PRESENCE);
      Publish client "/app/users/online" (frameOf r ONLINE_USERS);
      Publish client "/app/system/stats" (frameOf r SYSTEM)].

(** What [switchRoom] asks of the transport when it goes ahead. *)
Definition switchRequests (r : State) (client : nat) (w : World) : list Action :=
  closePrevious w
  ++ [Subscribe client (nextSubscription w)
        ("/topic/room/" +:+ roomId r) OnRoomTopic;
      Publish client "/app/join" (frameOf r JOIN);
      Publish client "/app/room/presence" (frameOf r ROOM_PRESENCE)].

(** ** Sample worlds *)

(** A freshly mounted console. *)
Definition offlineWorld : World := mount PageTsx "a1b2c3d4" 0.

(** The connect button was pressed and the broker has accepted the
    connection: [onConnect] is about to run. *)
Definition acceptedWorld : World :=
  world_of (mark_connected true 0 (step PageTsx ClickConnect offlineWorld)).

(** The console after a complete connect. *)
Definition liveWorld : World :=
  run PageTsx [ClickConnect; BrokerConnected 0 "2024-05-01T10:00:00.000Z"]
    offlineWorld.

(** The room field was edited after the connect button was pressed and
    before the broker accepted the connection. *)
Definition editedWorld : World :=
  run PageTsx [ClickConnect; TypeRoomId "eng"] offlineWorld.

(** The console was live, the socket was then lost (no handler of the page
    hears of it: [status] still says connected), and the room field was
    edited. *)
Definition droppedWorld : World :=
  run PageTsx [ClickConnect; BrokerConnected 0 "2024-05-01T10:00:00.000Z";
               SocketClosed 0; TypeRoomId "eng"] offlineWorld.

(** Client [client] exists and its closures are those of render [r]: the
    render that ran [connectAndJoin] when the client was built. *)
Definition Built (client : nat) (r : State) (w : World) : Prop :=
  exists cl, heap w !! client = Some cl /\ render cl = r.

(** The only client that can be active is the one [clientRef] holds. *)
Definition Owned (w : World) : Prop :=
  forall client cl,
    heap w !! client = Some cl -> active cl = true -> clientRef w = Some client.

(** No client is active and [clientRef] is [null]: the world [disconnect]
    leaves behind. *)
Definition Quiet (w : World) : Prop :=
  clientRef w = None
  /\ forall client cl, heap w !! client = Some cl -> active cl = false.

(** What an invariant [I] has to withstand to hold in every world reached
    from [mount]: the writes the handlers are made of, and the two handlers
    that replace the client.  [ok] is what [I] asks of a render before the
    closures of that render may publish. *)
Record Stable (I : World -> Prop) (ok : State -> Prop) : Prop := {
  stable_ui : forall f w,
    (forall s, userId (f s) = userId s) ->
    (forall s, length (logs s) <= 30 -> length (logs (f s)) <= 30) ->
    I w -> I (with_ui f w);
  stable_subscription : forall v w, I w -> I (with_roomSubscriptionRef v w);
  stable_next : forall n w, I w -> I (with_nextSubscription n w);
  stable_subscribe : forall client id destination cb w,
    I w -> I (emit (Subscribe client id destination cb) w);
  stable_unsubscribe : forall sub w, I w -> I (emit (Unsubscribe sub) w);
  stable_publish : forall r t client destination w,
    ok r -> destination ∈ appDestinations ->
    I w -> I (emit (Publish client destination (frameOf r t)) w);
  stable_connected : forall b client w,
    I w -> I (with_heap (alter (with_connected b) client (heap w)) w);
  stable_cells : forall w, I w -> ok (ui w);
  stable_render : forall w client cl,
    I w -> heap w !! client = Some cl -> ok (render cl);
  stable_disconnect : preserves I disconnect;
  stable_connectAndJoin : forall r, ok r -> preserves I (connectAndJoin r)
}.

(** * The presence engine the console talks to

    The backend service is not among the sources: only its client is.  Its
    Connection Registry, Room Directory and Session Lifecycle Manager are
    written here from the specification (sections 3, 4.1, 4.2, 4.4 and 7),
    as a sequential state machine: one request is one critical section. *)

Module Backend.

(** Modelled from the spec: the backend's [Connection] record (section 3),
    absent from the sources: claimed identity, current room (unset until
    JOIN), last-seen time and online flag. *)
Record Connection : Type := mkConnection {
  c_userId : option string;
  c_username : option string;
  c_roomId : option string;
  c_lastSeen : Z;
  c_online : bool
}.

(** Modelled from the spec: the backend's owned [PresenceState] (sections 2
    and 9), absent from the sources: the Connection Registry, from
    connection id to [Connection], and the Room Directory, from room id to
    the set of member user ids. *)
Record PresenceState : Type := mkState {
  registry : gmap nat Connection;
  directory : gmap string (gset string)
}.

(** Modelled from the spec: the backend's [PresenceSnapshot] read-model
    (section 3), absent from the sources; users are listed by user id. *)
Record PresenceSnapshot : Type := mkSnapshot {
  snap_roomId : string;
  snap_userCount : nat;
  snap_users : gset string
}.

(** Modelled from the spec: Registry [register] (section 4.1), absent from
    the sources: on transport connect, online, no room, no identity. *)
Definition register (c : nat) (now : Z) (reg : gmap nat Connection)
  : gmap nat Connection :=
  <[c := mkConnection None None None now true]> reg.

(** Modelled from the spec: Registry [identify] (section 4.1), absent from
    the sources: binds the claimed identity; binding again updates the
    display name only. *)
Definition identify (c : nat) (u name : string) (reg : gmap nat Connection)
  : gmap nat Connection :=
  alter (fun k => mkConnection (Some (default u (c_userId k))) (Some name)
                    (c_roomId k) (c_lastSeen k) (c_online k)) c reg.

(** Modelled from the spec: Registry [touch] (section 4.1), absent from the
    sources: updates [lastSeen], on any inbound frame. *)
Definition touch (c : nat) (now : Z) (reg : gmap nat Connection)
  : gmap nat Connection :=
  alter (fun k => mkConnection (c_userId k) (c_username k) (c_roomId k)
                    now (c_online k)) c reg.

(** Modelled from the spec: Registry [unregister] (section 4.1), absent
    from the sources: marks the connection offline and returns its last
    known room; a no-op on an unknown connection. *)
Definition unregister (c : nat) (reg : gmap nat Connection)
  : gmap nat Connection * option string :=
  (alter (fun k => mkConnection (c_userId k) (c_username k) (c_roomId k)
                     (c_lastSeen k) false) c reg,
   reg !! c ≫= c_roomId).

(** Modelled from the spec: the member set of a room of the Directory
    (section 3), absent from the sources; a room that does not exist has no
    member. *)
Definition members (r : string) (d : gmap string (gset string)) : gset string :=
  default ∅ (d !! r).

(** Modelled from the spec: Directory [snapshot] (section 4.2), absent from
    the sources: a pure read. *)
Definition snapshot (r : string) (d : gmap string (gset string))
  : PresenceSnapshot :=
  mkSnapshot r (size (members r d)) (members r d).

(** Modelled from the spec: Directory [join] (section 4.2), absent from the
    sources: adds the user, creating the room if absent, and returns the
    updated snapshot. *)
Definition join (r u : string) (d : gmap string (gset string))
  : gmap string (gset string) * PresenceSnapshot :=
  let d' := <[r := {[u]} ∪ members r d]> d in
  (d', snapshot r d').

(** Modelled from the spec: Directory [leave] (section 4.2), absent from
    the sources: removes the user; on a room that does not exist, or that
    the user is not in, nothing changes.  [eager] is the implementer's
    choice of section 3: collect a room as soon as it is empty, or leave it
    dormant.  The result is the updated snapshot, or [None] when the room
    does not exist afterwards or is empty. *)
Definition leave (eager : bool) (r u : string) (d : gmap string (gset string))
  : gmap string (gset string) * option PresenceSnapshot :=
  match d !! r with
  | None => (d, None)
  | Some m =>
      let d' :=
        if decide (u ∈ m) then
          if eager && bool_decide (m ∖ {[u]} = ∅) then delete r d
          else <[r := m ∖ {[u]}]> d
        else d in
      (d', if decide (members r d' = ∅) then None else Some (snapshot r d'))
  end.

(** Modelled from the spec: the lifecycle requests of section 4.4, absent
    from the sources: JOIN and LEAVE name a room, PING does not. *)
Inductive Request : Type :=
| Join (room : string)
| Leave (room : string)
| Ping.

(** Modelled from the spec: what the engine sends back (sections 4.3 and
    7), absent from the sources: a [ROOM_PRESENCE] broadcast on a room
    topic, or a [SYSTEM] error reply to one connection. *)
Inductive Output : Type :=
| RoomBroadcast (snap : PresenceSnapshot)
| SystemError (c : nat) (content : string).

(** Modelled from the spec: the current room of a connection, that is, its
    lifecycle state (section 4.4), absent from the sources: [None] for
    [CONNECTED] and for a connection the Registry does not know. *)
Definition room_of (c : nat) (s : PresenceState) : option string :=
  registry s !! c ≫= c_roomId.

(** Modelled from the spec: the Registry update that records the room of a
    connection on JOIN and LEAVE (sections 3 and 4.4), absent from the
    sources. *)
Definition set_room (c : nat) (room : option string) (reg : gmap nat Connection)
  : gmap nat Connection :=
  alter (fun k => mkConnection (c_userId k) (c_username k) room
                    (c_lastSeen k) (c_online k)) c reg.

(** Modelled from the spec: the Session Lifecycle transitions (section
    4.4), absent from the sources, for one inbound request of connection
    [c] at time [now].
    - A connection the Registry does not know is [CLOSED]: nothing changes.
    - Any inbound frame refreshes [lastSeen] (section 4.1).
    - JOIN needs the claimed user id; without it the frame is malformed and
      answered with a [SYSTEM] error.  JOIN leaves the room joined before,
      if it is another one, then joins, and broadcasts.
    - LEAVE of the current room leaves it and broadcasts; LEAVE of any
      other room is a no-op, not an error (sections 7 and 8).
    - PING only refreshes [lastSeen]. *)
Definition handle (eager : bool) (c : nat) (req : Request) (now : Z)
    (s : PresenceState) : PresenceState * list Output :=
  match registry s !! c with
  | None => (s, [])
  | Some conn =>
      let reg := touch c now (registry s) in
      match req with
      | Ping => (mkState reg (directory s), [])
      | Join r =>
          match c_userId conn with
          | None => (mkState reg (directory s), [SystemError c "missing userId"])
          | Some u =>
              let d1 :=
                match c_roomId conn with
                | Some old =>
                    if decide (old = r) then directory s
                    else (leave eager old u (directory s)).1
                | None => directory s
                end in
              let d2 := (join r u d1).1 in
              (mkState (set_room c (Some r) reg) d2,
               match c_roomId conn with
               | Some old =>
                   if decide (old = r) then [] else [RoomBroadcast (snapshot old d2)]
               | None => []
               end ++ [RoomBroadcast (snapshot r d2)])
          end
      | Leave r =>
          match c_roomId conn, c_userId conn with
          | Some cur, Some u =>
              if decide (cur = r) then
                let d1 := (leave eager r u (directory s)).1 in
                (mkState (set_room c None reg) d1, [RoomBroadcast (snapshot r d1)])
              else (mkState reg (directory s), [])
          | _, _ => (mkState reg (directory s), [])
          end
      end
  end.

(** Modelled from the spec: transport close or heartbeat timeout (sections
    4.4 and 7), absent from the sources: the connection is unregistered,
    leaves its current room, and its Registry entry is purged; the engine
    opens no connection of its own. *)
Definition close (eager : bool) (c : nat) (s : PresenceState)
  : PresenceState * list Output :=
  match registry s !! c with
  | None => (s, [])
  | Some conn =>
      let '(reg, last) := unregister c (registry s) in
      match last, c_userId conn with
      | Some r, Some u =>
          let d1 := (leave eager r u (directory s)).1 in
          (mkState (delete c reg) d1, [RoomBroadcast (snapshot r d1)])
      | _, _ => (mkState (delete c reg) (directory s), [])
      end
  end.

(** Modelled from the spec: a series of requests of one connection, each
    with its arrival time (section 8, "sequences of JOIN/LEAVE from a
    single connection"), absent from the sources.  The result is the final
    state and everything sent back. *)
Definition handleAll (eager : bool) (c : nat) (reqs : list (Request * Z))
    (s : PresenceState) : PresenceState * list Output :=
  fold_left
    (fun acc q =>
       let '(s', out) := handle eager c q.1 q.2 acc.1 in (s', acc.2 ++ out))
    reqs (s, []).

(** Modelled from the spec: the membership invariant of section 3 for the
    connection [c] claiming user [u], absent from the sources: the user is
    in no room other than the current room of the connection. *)
Definition single_room (c : nat) (u : string) (s : PresenceState) : Prop :=
  (exists conn, registry s !! c = Some conn /\ c_userId conn = Some u)
  /\ forall r, u ∈ members r (directory s) -> room_of c s = Some r.

(** Modelled from the spec: "the same Registry entry up to [lastSeen]"
    (sections 3 and 4.1), absent from the sources. *)
Definition same_but_lastSeen (k k' : Connection) : Prop :=
  c_userId k' = c_userId k /\ c_username k' = c_username k
  /\ c_roomId k' = c_roomId k /\ c_online k' = c_online k.

(** Modelled from the spec: an error surfaced to the caller (section 7),
    absent from the sources. *)
Definition is_error (o : Output) : bool :=
  match o with
  | SystemError _ _ => true
  | RoomBroadcast _ => false
  end.

End Backend.

(** * Rendering helpers of the page *)

(** ** [hashCode] and the avatar colour *)

(** [ToInt32] of ECMAScript, on an integer: the representative of [z]
    modulo 2^32 in [-2^31, 2^31).  It is what [x | 0] and the result of
    [x << n] go through. *)
Definition ToInt32 (z : Z) : Z :=
  ((z + 2147483648) mod 4294967296 - 2147483648)%Z.

(** [h << 5] on numbers: both operand and result are 32-bit integers. *)
Definition shiftLeft5 (h : Z) : Z := ToInt32 (Z.shiftl (ToInt32 h) 5%Z).

(** One turn of the loop of [hashCode]:
    [hash = (hash << 5) - hash + input.charCodeAt(i); hash |= 0].  The
    subtraction and the addition are exact on numbers of this size. *)
Definition hashCode_step (hash code : Z) : Z :=
  ToInt32 (shiftLeft5 hash - hash + code)%Z.

(** [hashCode(input)]; [input] is the string as its UTF-16 code units, the
    values [charCodeAt] returns. *)
Definition hashCode (input : list Z) : Z := fold_left hashCode_step input 0%Z.

(** The code units of a string whose characters are below U+0100, one per
    byte of the Rocq string. *)
Definition charCodes (s : string) : list Z :=
  map (fun a => Z.of_N (Ascii.N_of_ascii a)) (String.list_ascii_of_string s).

(** The polynomial [s[0]*31^(n-1) + ... + s[n-1]], started from [h]. *)
Definition poly31 (input : list Z) (h : Z) : Z :=
  fold_left (fun acc code => 31 * acc + code)%Z input h.

(** [PresenceUser] of the source, as far as [avatar] reads it; a field that
    is missing or [null] is [None]. *)
Record PresenceUser : Type := {
  pu_userId : option string;
  pu_username : option string
}.

(** [user.userId ?? user.username ?? "u"]. *)
Definition avatarKey (user : PresenceUser) : string :=
  default (default "u" (pu_username user)) (pu_userId user).

(** [hue] of [avatar]: [Math.abs(hashCode(key)) % 360]. *)
Definition avatarHue (user : PresenceUser) : Z :=
  Z.rem (Z.abs (hashCode (charCodes (avatarKey user)))) 360%Z.

(** The second colour stop of the gradient: [(hue + 40) % 360]. *)
Definition avatarHue2 (user : PresenceUser) : Z :=
  Z.rem (avatarHue user + 40)%Z 360%Z.

(** ** [formatRelative] *)

(** [Math.round(a / b)] for integers [a] and [b > 0]: the nearest integer,
    a tie going up.  With [b] 60000 or 60 and [a] within the range of
    [Date], the quotient computed in floating point is on the same side of
    every half-integer as the exact one, so the integer formula is what
    [Math.round] returns. *)
Definition Math_round_div (a b : Z) : Z := ((2 * a + b) / (2 * b))%Z.

(** [formatRelative(value)] in a render whose [nowTs] cell holds [now].
    [getTime] is [new Date(value).getTime()], [None] for an invalid date
    ([NaN], which fails every comparison); [toLocaleDateString] is the
    method of the same name, on the parsed time. *)
Definition formatRelative (getTime : string -> option Z)
    (toLocaleDateString : option Z -> string) (now : Z)
    (value : option string) : string :=
  match value with
  | None => "—"
  | Some v =>
      if String.eqb v "" then "—"
      else
        match getTime v with
        | None => toLocaleDateString None
        | Some t =>
            let diff := (now - t)%Z in
            let mins := Math_round_div diff 60000%Z in
            if (mins <? 1)%Z then "just now"
            else if (mins <? 60)%Z then pretty mins +:+ "m ago"
            else
              let hours := Math_round_div mins 60%Z in
              if (hours <? 24)%Z then pretty hours +:+ "h ago"
              else toLocaleDateString (Some t)
        end
  end.

(** * More vocabulary for the handlers *)

(** What a call of [sendMessage] puts on the wire in world [w]: one frame
    when the guard passes, nothing otherwise. *)
Definition sentBy (w : World) (destination : string)
    (body : list (string * json)) : list Action :=
  match clientRef w with
  | Some client =>
      if Stomp.is_connected client w then [Publish client destination body]
      else []
  | None => []
  end.

(** What [connectAndJoin] asks of the transport when it goes ahead: close
    the room subscription, deactivate the client held so far, activate the
    new one. *)
Definition reconnectRequests (w : World) : list Action :=
  closePrevious w
  ++ match clientRef w with
     | Some client => [Deactivate client]
     | None => []
     end
  ++ [Activate (length (heap w))].

(** [payload.data] is missing, [undefined] or [null]. *)
Definition no_data (payload : WireMessage) : Prop :=
  nullable (Wire.data payload) = None.

(** The console after a failed attempt and a second press of the connect
    button: two clients, the first one deactivated. *)
Definition retriedWorld : World :=
  run PageTsx [ClickConnect; SocketError 0; ClickConnect] offlineWorld.

(** * Properties of the console *)

(** ** Reasoning about handlers *)

Section Preservation.
Variable I : World -> Prop.

Lemma preserves_ret {A} (a : A) : preserves I (ret a).
Proof. intros w Hw. exact Hw. Qed.

Lemma preserves_throw {A} (e : string) : preserves I (@throw A e).
Proof. intros w Hw. exact Hw. Qed.

Lemma preserves_bind {A B} (h : Handler A) (k : A -> Handler B) :
  preserves I h -> (forall a, preserves I (k a)) -> preserves I (bind h k).
Proof.
  intros Hh Hk w Hw. unfold bind.
  specialize (Hh w Hw).
  destruct (h w) as [a w'|e w']; simpl in *.
  - apply Hk, Hh.
  - exact Hh.
Qed.

Lemma preserves_modify (f : World -> World) :
  (forall w, I w -> I (f w)) -> preserves I (modify f).
Proof. intros Hf w Hw. simpl. auto. Qed.

End Preservation.

(** ** [addLog] *)

Lemma pushLog_length now entry prev : length (pushLog now entry prev) <= 30.
Proof. unfold pushLog. rewrite length_take. lia. Qed.

Lemma pushLog_head now entry prev :
  head (pushLog now entry prev) = Some (logEntry now entry).
Proof. reflexivity. Qed.

Lemma pushLog_shift now entry prev (i : nat) :
  i < 29 -> pushLog now entry prev !! S i = prev !! i.
Proof.
  intros Hi. unfold pushLog.
  rewrite lookup_take_lt by lia. reflexivity.
Qed.

Lemma pushLog_drop now entry prev (i : nat) :
  30 <= i -> pushLog now entry prev !! i = None.
Proof.
  intros Hi. unfold pushLog. apply lookup_take_ge. lia.
Qed.

Lemma pushLogs_snoc calls now entry prev :
  pushLogs (calls ++ [(now, entry)]) prev
  = pushLog now entry (pushLogs calls prev).
Proof. unfold pushLogs. rewrite fold_left_app. reflexivity. Qed.

Lemma pushLogs_length calls prev :
  length prev <= 30 -> length (pushLogs calls prev) <= 30.
Proof.
  revert prev. induction calls as [|[now entry] calls IH]; intros prev Hprev.
  - exact Hprev.
  - simpl. apply IH, pushLog_length.
Qed.

Lemma addLogs_logs calls w :
  logs (ui (addLogs calls w)) = pushLogs calls (logs (ui w)).
Proof.
  revert w. induction calls as [|[now entry] calls IH]; intros w.
  - reflexivity.
  - simpl. rewrite IH. reflexivity.
Qed.

(** ** The frames [sendMessage] builds *)

Lemma frameOf_members r t :
  frameOf r t
  = [("roomId", JStr (roomId r)); ("userId", JStr (userId r));
     ("username", JStr (username r)); ("type", JStr (MessageType_name t))].
Proof. reflexivity. Qed.

(** Merging, property by property: an own property of [body] overrides the
    cell, and one holding [undefined] removes the member from the JSON. *)
Lemma outgoing_userId r body :
  json_field "userId" (JSON_stringify (outgoing r body))
  = match Wire.userId body with
    | Absent => Some (JStr (userId r))
    | Undefined => None
    | Present v => Some (JStr v)
    end.
Proof.
  unfold JSON_stringify, outgoing; simpl.
  destruct (Wire.roomId body), (Wire.userId body), (Wire.username body),
    (Wire.content body), (Wire.data body), (Wire.timestamp body);
    reflexivity.
Qed.

(** ** [sendMessage] *)

Lemma sendMessage_connected r destination body client w :
  clientRef w = Some client ->
  Stomp.is_connected client w = true ->
  sendMessage r destination body w
  = Returned tt
      (emit (Publish client destination (JSON_stringify (outgoing r body))) w).
Proof.
  intros Href Hconn. unfold sendMessage, Stomp.publish.
  rewrite Href, Hconn. reflexivity.
Qed.

Lemma sendMessage_refused r destination body w :
  canSend w = false ->
  sendMessage r destination body w
  = Returned tt (with_ui (with_error (Some connect_first)) w).
Proof.
  unfold canSend, sendMessage. intros Hguard.
  destruct (clientRef w) as [client|]; [rewrite Hguard|]; reflexivity.
Qed.

(** C10. [sendMessage] with a null [clientRef] or a client that is not
    connected publishes nothing, sets [error] to "Connect first to send
    messages." and changes nothing else; otherwise it publishes exactly one
    frame, to the given destination, and changes no cell or ref.  It
    returns in both cases. *)
Theorem sendMessage_guard r destination body w :
  let o := sendMessage r destination body w in
  returned o = true
  /\ (canSend w = false ->
      wire (world_of o) = wire w
      /\ error (ui (world_of o)) = Some "Connect first to send messages."
      /\ unchanged_but_error (ui w) (ui (world_of o))
      /\ same_refs w (world_of o))
  /\ (canSend w = true ->
      exists client,
        clientRef w = Some client
        /\ wire (world_of o)
           = wire w
             ++ [Publish client destination (JSON_stringify (outgoing r body))]
        /\ ui (world_of o) = ui w
        /\ same_refs w (world_of o)).
Proof.
  simpl. destruct (canSend w) eqn:Hguard.
  - unfold canSend in Hguard.
    destruct (clientRef w) as [client|] eqn:Href; [|discriminate].
    rewrite (sendMessage_connected _ _ _ client) by assumption.
    split; [reflexivity|]. split; [discriminate|].
    intros _. exists client. repeat split.
  - rewrite sendMessage_refused by assumption.
    split; [reflexivity|]. split; [|discriminate].
    intros _. repeat split.
Qed.

(** ** [subscribeRoom], [onConnect] and [switchRoom] *)

Lemma subscribe_connected client destination cb w :
  Stomp.is_connected client w = true ->
  Stomp.subscribe client destination cb w
  = Returned {| sub_client := client; sub_id := nextSubscription w |}
      (emit (Subscribe client (nextSubscription w) destination cb)
         (with_nextSubscription (S (nextSubscription w)) w)).
Proof. intros Hconn. unfold Stomp.subscribe. rewrite Hconn. reflexivity. Qed.

Lemma subscribeRoom_connected client room w :
  Stomp.is_connected client w = true ->
  let o := subscribeRoom (Some client) room w in
  returned o = true
  /\ wire (world_of o)
     = wire w ++ closePrevious w
       ++ [Subscribe client (nextSubscription w) (roomTopic room) OnRoomTopic]
  /\ roomSubscriptionRef (world_of o)
     = Some {| sub_client := client; sub_id := nextSubscription w |}
  /\ nextSubscription (world_of o) = S (nextSubscription w)
  /\ ui (world_of o) = ui w /\ clientRef (world_of o) = clientRef w
  /\ heap (world_of o) = heap w.
Proof.
  intros Hconn. unfold subscribeRoom, closePrevious, bind.
  destruct (roomSubscriptionRef w) as [sub|]; simpl.
  - rewrite subscribe_connected by exact Hconn. simpl.
    rewrite <- app_assoc. repeat split.
  - rewrite subscribe_connected by exact Hconn. simpl. repeat split.
Qed.

(** The run of [onConnect] on a connected client held by [clientRef]. *)
Lemma onConnect_run r client now w :
  clientRef w = Some client ->
  Stomp.is_connected client w = true ->
  exists w',
    onConnect r client now w = Returned tt w'
    /\ wire w' = wire w ++ connectRequests r client w
    /\ status (ui w') = Connected.
Proof.
  intros Href Hconn.
  unfold onConnect, subscribeCoreRoutes, subscribeRoom, bind, setStatus,
    setError, modify, ret, requestPresence, requestOnline, requestStats,
    sendMessage, Stomp.subscribe, Stomp.publish, Stomp.unsubscribe,
    connectRequests, closePrevious, addLog, setLogs, Stomp.is_connected in *.
  destruct (roomSubscriptionRef w) as [sub|] eqn:Hsub;
    repeat (cbn; rewrite ?Hconn, ?Href, ?Hsub).
  all: eexists; split; [reflexivity|]; split; [|reflexivity];
    cbn; rewrite <- ?app_assoc; reflexivity.
Qed.

(** What [onConnect] asks of the transport when it runs on the connected
    client held by [clientRef]. *)
Lemma onConnect_requests r client now w :
  clientRef w = Some client ->
  Stomp.is_connected client w = true ->
  let o := onConnect r client now w in
  returned o = true
  /\ wire (world_of o) = wire w ++ connectRequests r client w
  /\ (forall q, q ∈ userQueues ->
        exists id cb, Subscribe client id q cb ∈ connectRequests r client w)
  /\ (exists id,
        Subscribe client id ("/topic/room/" +:+ roomId r) OnRoomTopic
          ∈ connectRequests r client w)
  /\ Publish client "/app/join"
       [("roomId", JStr (roomId r)); ("userId", JStr (userId r));
        ("username", JStr (username r)); ("type", JStr "JOIN")]
     ∈ connectRequests r client w
  /\ status (ui (world_of o)) = Connected.
Proof.
  intros Href Hconn. cbv zeta.
  destruct (onConnect_run r client now w Href Hconn)
    as (w' & -> & Hwire & Hstatus). simpl.
  split; [reflexivity|]. split; [exact Hwire|].
  split.
  { intros q Hq. unfold userQueues in Hq. unfold connectRequests.
    apply elem_of_cons in Hq as [->|Hq].
    { exists (nextSubscription w), OnRoomPresenceQueue. set_solver. }
    apply elem_of_cons in Hq as [->|Hq].
    { exists (S (nextSubscription w)), OnOnlineUsersQueue. set_solver. }
    apply elem_of_cons in Hq as [->|Hq].
    { exists (S (S (nextSubscription w))), OnSystemStatsQueue. set_solver. }
    by apply elem_of_nil in Hq. }
  split.
  { exists (S (S (S (nextSubscription w)))). unfold connectRequests.
    set_solver. }
  split.
  { unfold connectRequests. rewrite (frameOf_members r JOIN).
    cbn [MessageType_name]. set_solver. }
  exact Hstatus.
Qed.

(** C2, as the page has it.  [switchRoom] run from a render whose status is
    connected, while the client held by [clientRef] is connected: it
    returns, and what it asks of the transport is, in this order, to close
    the subscription held by [roomSubscriptionRef], to subscribe to
    [/topic/room/{roomId}], and to publish JOIN on [/app/join] (then the
    presence request); nothing is published on [/app/leave].  From a render
    whose status is not connected it asks nothing of the transport and only
    sets [error].  What it does when the status says connected and the
    client is not is left to [switchRoom_transport_down]. *)
Theorem switchRoom_resubscribes_then_joins r now w :
  (status r = Connected ->
   forall client,
     clientRef w = Some client ->
     Stomp.is_connected client w = true ->
     let o := switchRoom r now w in
     returned o = true
     /\ wire (world_of o)
        = wire w
          ++ closePrevious w
          ++ [Subscribe client (nextSubscription w)
                ("/topic/room/" +:+ roomId r) OnRoomTopic;
              Publish client "/app/join" (frameOf r JOIN);
              Publish client "/app/room/presence" (frameOf r ROOM_PRESENCE)]
     /\ roomSubscriptionRef (world_of o)
        = Some {| sub_client := client; sub_id := nextSubscription w |}
     /\ (forall destination body,
           (destination, body) ∈ published (switchRequests r client w) ->
           destination <> "/app/leave"))
  /\ (status r <> Connected ->
      let o := switchRoom r now w in
      returned o = true
      /\ wire (world_of o) = wire w
      /\ error (ui (world_of o)) = Some "Connect first, then switch rooms."
      /\ unchanged_but_error (ui w) (ui (world_of o))
      /\ same_refs w (world_of o)).
Proof.
  split.
  - intros Hstatus client Href Hconn. cbv zeta.
    assert (Hrun : exists w',
      switchRoom r now w = Returned tt w'
      /\ wire w' = wire w ++ switchRequests r client w
      /\ roomSubscriptionRef w'
         = Some {| sub_client := client; sub_id := nextSubscription w |}).
    { unfold switchRoom, subscribeRoom, bind, modify, ret, requestPresence,
        sendMessage, Stomp.subscribe, Stomp.publish, Stomp.unsubscribe,
        switchRequests, closePrevious, addLog, setLogs, Stomp.is_connected in *.
      unfold connectionReady. rewrite Hstatus.
      destruct (roomSubscriptionRef w) as [sub|] eqn:Hsub;
        repeat (cbn; rewrite ?Hconn, ?Href, ?Hsub).
      all: eexists; split; [reflexivity|]; split; [|reflexivity];
        cbn; rewrite <- ?app_assoc; reflexivity. }
    destruct Hrun as (w' & -> & Hwire & Hsub). simpl.
    split; [reflexivity|]. split; [exact Hwire|]. split; [exact Hsub|].
    intros destination body Hin.
    unfold switchRequests, closePrevious, published in Hin.
    destruct (roomSubscriptionRef w); cbn in Hin;
      apply elem_of_cons in Hin as [Heq|Hin];
      try (inversion Heq; subst; discriminate);
      apply elem_of_cons in Hin as [Heq|Hin];
      try (inversion Heq; subst; discriminate);
      by apply elem_of_nil in Hin.
  - intros Hstatus. cbv zeta. unfold switchRoom, connectionReady.
    destruct (status r); [| |congruence]; repeat split.
Qed.

(** The status cell can still say connected after the socket was lost: no
    handler follows the transport down.  [switchRoom] then closes the old
    subscription, and the library refuses the new one: nothing is joined. *)
Lemma switchRoom_transport_down r now client w :
  status r = Connected ->
  clientRef w = Some client ->
  Stomp.is_connected client w = false ->
  let o := switchRoom r now w in
  returned o = false
  /\ wire (world_of o) = wire w ++ closePrevious w
  /\ ui (world_of o) = ui w.
Proof.
  intros Hstatus Href Hconn. cbv zeta.
  unfold switchRoom, connectionReady, subscribeRoom, bind, modify,
    Stomp.subscribe, Stomp.unsubscribe, closePrevious, Stomp.is_connected in *.
  rewrite Hstatus, Href.
  destruct (roomSubscriptionRef w) as [sub|]; cbn; rewrite Hconn; cbn.
  - by repeat split.
  - rewrite app_nil_r. by repeat split.
Qed.

(** C2, as stated, fails after the socket was lost under a live console:
    the status cell says connected and the client is not.  The old room
    subscription is closed, [client.subscribe] throws, and neither a
    subscription nor a JOIN follows; no error is set either. *)
Lemma switchRoom_after_socket_drop :
  status (ui droppedWorld) = Connected
  /\ clientRef droppedWorld = Some 0
  /\ Stomp.is_connected 0 droppedWorld = false
  /\ roomSubscriptionRef droppedWorld = Some {| sub_client := 0; sub_id := 3 |}
  /\ returned (switchRoom (ui droppedWorld) "2024-05-01T10:05:00.000Z"
                 droppedWorld)
     = false
  /\ wire (world_of (switchRoom (ui droppedWorld) "2024-05-01T10:05:00.000Z"
                       droppedWorld))
     = wire droppedWorld ++ [Unsubscribe {| sub_client := 0; sub_id := 3 |}]
  /\ error (ui (world_of (switchRoom (ui droppedWorld)
                            "2024-05-01T10:05:00.000Z" droppedWorld)))
     = None
  /\ ui (world_of (switchRoom (ui droppedWorld) "2024-05-01T10:05:00.000Z"
                     droppedWorld))
     = ui droppedWorld.
Proof. repeat split. Qed.

(** ** Invariants of the mounted console *)

Create HintDb stable discriminated.

Section StableHandlers.
Variable I : World -> Prop.
Variable ok : State -> Prop.
Hypothesis HS : Stable I ok.

Lemma stable_setter (f : State -> State) :
  (forall s, userId (f s) = userId s) ->
  (forall s, logs (f s) = logs s) ->
  preserves I (modify (with_ui f)).
Proof.
  intros Hid Hlogs. apply preserves_modify. intros w.
  apply (stable_ui I ok HS); [exact Hid|]. intros s. rewrite Hlogs. auto.
Qed.

Lemma stable_setStatus v : preserves I (setStatus v).
Proof. by apply stable_setter. Qed.
Lemma stable_setPresence v : preserves I (setPresence v).
Proof. by apply stable_setter. Qed.
Lemma stable_setOnlineUsers v : preserves I (setOnlineUsers v).
Proof. by apply stable_setter. Qed.
Lemma stable_setStats v : preserves I (setStats v).
Proof. by apply stable_setter. Qed.
Lemma stable_setError v : preserves I (setError v).
Proof. by apply stable_setter. Qed.
Lemma stable_setLastPing v : preserves I (setLastPing v).
Proof. by apply stable_setter. Qed.
Lemma stable_setNowTs v : preserves I (setNowTs v).
Proof. by apply stable_setter. Qed.
Lemma stable_setActiveTab v : preserves I (setActiveTab v).
Proof. by apply stable_setter. Qed.
Lemma stable_setUsername v : preserves I (setUsername v).
Proof. by apply stable_setter. Qed.
Lemma stable_setRoomId v : preserves I (setRoomId v).
Proof. by apply stable_setter. Qed.

Lemma stable_addLog now entry : preserves I (addLog now entry).
Proof.
  apply preserves_modify. intros w. apply (stable_ui I ok HS); [done|].
  intros s _. apply pushLog_length.
Qed.

Lemma stable_Stomp_unsubscribe sub : preserves I (Stomp.unsubscribe sub).
Proof. apply preserves_modify. intros w. apply (stable_unsubscribe I ok HS). Qed.

Lemma stable_Stomp_subscribe client destination cb :
  preserves I (Stomp.subscribe client destination cb).
Proof.
  intros w Hw. unfold Stomp.subscribe.
  destruct (Stomp.is_connected client w); simpl; [|exact Hw].
  by apply (stable_subscribe I ok HS), (stable_next I ok HS).
Qed.

Lemma stable_mark_connected b client : preserves I (mark_connected b client).
Proof. apply preserves_modify. intros w. apply (stable_connected I ok HS). Qed.

Lemma stable_set_roomSubscriptionRef v :
  preserves I (modify (with_roomSubscriptionRef v)).
Proof. apply preserves_modify. intros w. apply (stable_subscription I ok HS). Qed.

Lemma stable_sendMessage r destination t :
  ok r ->
  destination ∈ appDestinations ->
  preserves I (sendMessage r destination (Wire.only_type t)).
Proof.
  intros Hr Hd w Hw. unfold sendMessage.
  destruct (clientRef w) as [client|]; [|by apply stable_setError].
  destruct (Stomp.is_connected client w) eqn:Hconn; [|by apply stable_setError].
  unfold Stomp.publish. rewrite Hconn. simpl.
  by apply (stable_publish I ok HS).
Qed.

Hint Resolve preserves_ret preserves_throw
  stable_setStatus stable_setPresence stable_setOnlineUsers stable_setStats
  stable_setError stable_setLastPing stable_setNowTs stable_setActiveTab
  stable_setUsername stable_setRoomId stable_addLog stable_Stomp_unsubscribe
  stable_Stomp_subscribe stable_mark_connected stable_set_roomSubscriptionRef
  stable_sendMessage : stable.

Hint Extern 1 (_ ∈ appDestinations) =>
  unfold appDestinations; set_solver : stable.

Ltac stable_handler :=
  repeat first
    [ progress intros
    | solve [eauto 3 with stable]
    | apply preserves_bind ].

Lemma stable_subscribeCoreRoutes client :
  preserves I (subscribeCoreRoutes client).
Proof. unfold subscribeCoreRoutes. stable_handler. Qed.

Lemma stable_subscribeRoom client room :
  preserves I (subscribeRoom client room).
Proof.
  intros w Hw. unfold subscribeRoom.
  refine (preserves_bind _ _ _ _ _ w Hw).
  { destruct (roomSubscriptionRef w); eauto with stable. }
  intros _. apply preserves_bind; [|stable_handler].
  destruct client; eauto with stable.
Qed.

Hint Resolve stable_subscribeCoreRoutes stable_subscribeRoom : stable.

Lemma stable_requestPresence r : ok r -> preserves I (requestPresence r).
Proof. intros Hr. unfold requestPresence. stable_handler. Qed.

Lemma stable_requestOnline r : ok r -> preserves I (requestOnline r).
Proof. intros Hr. unfold requestOnline. stable_handler. Qed.

Lemma stable_requestStats r : ok r -> preserves I (requestStats r).
Proof. intros Hr. unfold requestStats. stable_handler. Qed.

Hint Resolve stable_requestPresence stable_requestOnline stable_requestStats
  : stable.

Lemma stable_onConnect r client now :
  ok r -> preserves I (onConnect r client now).
Proof. intros Hr. unfold onConnect. stable_handler. Qed.

Lemma stable_onStompError message : preserves I (onStompError message).
Proof. unfold onStompError. stable_handler. Qed.

Lemma stable_onWebSocketError : preserves I onWebSocketError.
Proof. unfold onWebSocketError. stable_handler. Qed.

Lemma stable_sendPing r now : ok r -> preserves I (sendPing r now).
Proof. intros Hr. unfold sendPing. stable_handler. Qed.

Lemma stable_leaveRoom r now : ok r -> preserves I (leaveRoom r now).
Proof. intros Hr. unfold leaveRoom. stable_handler. Qed.

Lemma stable_switchRoom r now : ok r -> preserves I (switchRoom r now).
Proof.
  intros Hr. unfold switchRoom, connectionReady.
  destruct (status r); [stable_handler..|].
  apply preserves_bind; [|stable_handler].
  intros w Hw. by apply stable_subscribeRoom.
Qed.

Lemma stable_deliver rev cb now payload :
  preserves I (deliver rev cb now payload).
Proof.
  destruct cb; simpl.
  - unfold onRoomPresenceQueue.
    destruct (Wire.data payload) as [| |d]; [stable_handler..|].
    destruct (json_truthy d); stable_handler.
  - unfold onOnlineUsersQueue.
    destruct (Wire.data payload) as [| |[]]; stable_handler.
  - unfold onSystemStatsQueue. stable_handler.
  - unfold onRoomTopic. apply preserves_bind.
    + destruct rev, (Wire.data payload) as [| |d]; try stable_handler.
      destruct (_ && _); stable_handler.
    + intros _. destruct (Wire.content payload) as [| |c]; try stable_handler.
      destruct (string_truthy c); stable_handler.
Qed.

Lemma stable_on_active client (k : Client -> Handler unit) :
  (forall c, ok (render c) -> preserves I (k c)) ->
  preserves I (on_active client k).
Proof.
  intros Hk w Hw. unfold on_active.
  destruct (heap w !! client) as [c|] eqn:Hc; [|exact Hw].
  destruct (active c); [|exact Hw].
  apply Hk; [|exact Hw]. by apply (stable_render I ok HS w client).
Qed.

Lemma stable_handle rev ev : preserves I (handle rev ev).
Proof.
  intros w Hw. pose proof (stable_cells I ok HS w Hw) as Hu.
  destruct ev; simpl.
  - by apply stable_setUsername.
  - by apply stable_setRoomId.
  - by apply stable_setActiveTab.
  - by apply (stable_connectAndJoin I ok HS).
  - by apply (stable_disconnect I ok HS).
  - by apply stable_sendPing.
  - by apply stable_leaveRoom.
  - by apply stable_switchRoom.
  - by apply stable_requestPresence.
  - by apply stable_requestOnline.
  - by apply stable_requestStats.
  - apply stable_on_active; [|exact Hw]. intros c Hc.
    apply preserves_bind; [apply stable_mark_connected|].
    intros _. by apply stable_onConnect.
  - apply stable_on_active; [|exact Hw]. intros c Hc. apply stable_onStompError.
  - apply stable_on_active; [|exact Hw]. intros c Hc.
    apply stable_onWebSocketError.
  - apply stable_on_active; [|exact Hw]. intros c Hc.
    apply stable_mark_connected.
  - by apply stable_deliver.
  - by apply stable_setNowTs.
  - by apply (stable_disconnect I ok HS).
Qed.

Lemma stable_run rev evs w : I w -> I (run rev evs w).
Proof.
  revert w. induction evs as [|ev evs IH]; intros w Hw; [exact Hw|].
  simpl. apply IH. by apply stable_handle.
Qed.

End StableHandlers.

(** ** [Sound] is an invariant *)

Section SoundStable.
Variable u : string.

Lemma Sound_with_ui f w :
  (forall s, userId (f s) = userId s) ->
  (forall s, length (logs s) <= 30 -> length (logs (f s)) <= 30) ->
  Sound u w -> Sound u (with_ui f w).
Proof.
  intros Hid Hlogs [Hu Hl Hh Hw]. split; simpl; auto.
  rewrite Hid. exact Hu.
Qed.

Lemma Sound_refs w w' :
  ui w' = ui w -> heap w' = heap w -> wire w' = wire w ->
  Sound u w -> Sound u w'.
Proof.
  intros Hui Hheap Hwire [Hu Hl Hh Hw].
  split; rewrite ?Hui, ?Hheap, ?Hwire; assumption.
Qed.

Lemma Sound_alter g client w :
  (forall c, render (g c) = render c /\ reconnectDelay (g c) = reconnectDelay c) ->
  Sound u w -> Sound u (with_heap (alter g client (heap w)) w).
Proof.
  intros Hg [Hu Hl Hh Hw]. split; simpl; auto.
  apply Forall_alter; [exact Hh|].
  intros c _ [Hc1 Hc2]. destruct (Hg c) as [-> ->]. auto.
Qed.

Lemma Sound_emit a w :
  frame_addressed a -> frame_from u a -> Sound u w -> Sound u (emit a w).
Proof.
  intros Ha1 Ha2 [Hu Hl Hh Hw]. split; simpl; auto.
  apply Forall_app. split; [exact Hw|].
  apply Forall_singleton. auto.
Qed.

Lemma frameOf_addressed r t client destination :
  destination ∈ appDestinations ->
  frame_addressed (Publish client destination (frameOf r t)).
Proof.
  intros Hd. rewrite frameOf_members. simpl.
  split; [exact Hd|]. unfold has_field. simpl. eauto.
Qed.

Lemma Sound_set_ui f :
  (forall s, userId (f s) = userId s) ->
  (forall s, logs (f s) = logs s) ->
  preserves (Sound u) (modify (with_ui f)).
Proof.
  intros Hid Hlogs. apply preserves_modify. intros w.
  apply Sound_with_ui; [exact Hid|]. intros s. by rewrite Hlogs.
Qed.

Lemma Sound_set_clientRef v : preserves (Sound u) (modify (with_clientRef v)).
Proof. apply preserves_modify. intros w. by apply Sound_refs. Qed.

Lemma Sound_Stomp_deactivate client :
  preserves (Sound u) (Stomp.deactivate client).
Proof.
  apply preserves_modify. intros w Hw.
  apply Sound_emit; [done|done|]. by apply Sound_alter.
Qed.

Lemma Sound_Stomp_activate client :
  preserves (Sound u) (Stomp.activate client).
Proof.
  apply preserves_modify. intros w Hw.
  apply Sound_emit; [done|done|]. by apply Sound_alter.
Qed.

Lemma Sound_Stomp_new_Client r :
  userId r = u -> preserves (Sound u) (Stomp.new_Client 5000 r).
Proof.
  intros Hr w [Hu Hl Hh Hw]. split; simpl; auto.
  apply Forall_app. split; [exact Hh|]. by apply Forall_singleton.
Qed.

Lemma Sound_disconnect : preserves (Sound u) disconnect.
Proof.
  intros w Hw. unfold disconnect.
  refine (preserves_bind _ _ _ _ _ w Hw).
  { destruct (roomSubscriptionRef w); [|apply preserves_ret].
    apply preserves_modify. intros w1. by apply Sound_emit. }
  intros _. apply preserves_bind.
  { apply preserves_modify. intros w1. by apply Sound_refs. }
  intros _. apply preserves_bind.
  { intros w1 Hw1. destruct (clientRef w1); [|exact Hw1].
    by apply Sound_Stomp_deactivate. }
  intros _. apply preserves_bind; [apply Sound_set_clientRef|].
  intros _. apply preserves_bind; [by apply Sound_set_ui|].
  intros _. by apply Sound_set_ui.
Qed.

Lemma Sound_connectAndJoin r :
  userId r = u -> preserves (Sound u) (connectAndJoin r).
Proof.
  intros Hr.
  assert (Hgo : preserves (Sound u)
    (disconnect;; setError None;; setStatus Connecting;;
     client <- Stomp.new_Client 5000 r;;
     Stomp.activate client;;
     modify (with_clientRef (Some client)))).
  { apply preserves_bind; [apply Sound_disconnect|]. intros _.
    apply preserves_bind; [by apply Sound_set_ui|]. intros _.
    apply preserves_bind; [by apply Sound_set_ui|]. intros _.
    apply preserves_bind; [by apply Sound_Stomp_new_Client|]. intros client.
    apply preserves_bind; [apply Sound_Stomp_activate|]. intros _.
    apply Sound_set_clientRef. }
  unfold connectAndJoin. destruct (status r);
    [exact Hgo | apply preserves_ret | exact Hgo].
Qed.

Lemma Sound_stable : Stable (Sound u) (fun r => userId r = u).
Proof.
  split.
  - apply Sound_with_ui.
  - intros v w. by apply Sound_refs.
  - intros n w. by apply Sound_refs.
  - intros client id destination cb w. by apply Sound_emit.
  - intros sub w. by apply Sound_emit.
  - intros r t client destination w Hr Hd.
    apply Sound_emit; [by apply frameOf_addressed|]. simpl. by rewrite Hr.
  - intros b client w. by apply Sound_alter.
  - by intros w [Hu _ _ _].
  - intros w client cl [_ _ Hheap _] Hcl.
    rewrite Forall_lookup in Hheap. by destruct (Hheap _ _ Hcl).
  - apply Sound_disconnect.
  - apply Sound_connectAndJoin.
Qed.

End SoundStable.

Lemma Sound_mount rev randomId now : Sound randomId (mount rev randomId now).
Proof. split; simpl; auto; lia. Qed.

Lemma Sound_reachable rev randomId now evs :
  Sound randomId (run rev evs (mount rev randomId now)).
Proof.
  eapply stable_run; [apply Sound_stable | apply Sound_mount].
Qed.

(** ** [connectAndJoin] *)

Lemma disconnect_run w :
  exists w',
    disconnect w = Returned tt w'
    /\ length (heap w') = length (heap w)
    /\ clientRef w' = None
    /\ roomSubscriptionRef w' = None
    /\ roomId (ui w') = roomId (ui w).
Proof.
  unfold disconnect, bind, modify, ret, setStatus, setPresence,
    Stomp.unsubscribe, Stomp.deactivate.
  destruct (roomSubscriptionRef w) as [sub|]; cbn;
    destruct (clientRef w) as [client|]; cbn;
    eexists; (split; [reflexivity|]); cbn;
    rewrite ?length_alter; repeat split.
Qed.

(** The client [connectAndJoin] builds and stores in [clientRef]. *)
Lemma connectAndJoin_installs r w :
  status r <> Connecting ->
  exists w',
    connectAndJoin r w = Returned tt w'
    /\ clientRef w' = Some (length (heap w))
    /\ heap w' !! length (heap w)
       = Some {| reconnectDelay := 5000; render := r;
                 active := true; connected := false |}
    /\ roomSubscriptionRef w' = None
    /\ roomId (ui w') = roomId (ui w)
    /\ Activate (length (heap w)) ∈ wire w'.
Proof.
  intros Hstatus.
  destruct (disconnect_run w) as (w1 & Hrun & Hlen & Href & Hsub & Hroom).
  assert (Hgo : connectAndJoin r w
    = (disconnect;; setError None;; setStatus Connecting;;
       client <- Stomp.new_Client 5000 r;;
       Stomp.activate client;;
       modify (with_clientRef (Some client))) w).
  { unfold connectAndJoin. destruct (status r); congruence. }
  rewrite Hgo. unfold bind at 1. rewrite Hrun.
  unfold bind, setError, setStatus, modify, Stomp.new_Client, Stomp.activate.
  cbn. eexists. split; [reflexivity|]. cbn.
  rewrite Hlen. split; [reflexivity|]. split.
  { rewrite <- Hlen. rewrite list_lookup_alter_eq, list_lookup_middle by reflexivity.
    reflexivity. }
  split; [exact Hsub|]. split; [exact Hroom|].
  set_solver.
Qed.

(** ** [Owned] is an invariant *)

Lemma Owned_refs w w' :
  clientRef w' = clientRef w -> heap w' = heap w -> Owned w -> Owned w'.
Proof. intros Href Hheap Hw client cl. rewrite Href, Hheap. apply Hw. Qed.

Lemma Quiet_refs w w' :
  clientRef w' = clientRef w -> heap w' = heap w -> Quiet w -> Quiet w'.
Proof. intros Href Hheap [Hnone Hoff]. split; rewrite ?Href, ?Hheap; auto. Qed.

(** [disconnect] leaves no active client behind. *)
Lemma disconnect_quiet w : Owned w -> Quiet (world_of (disconnect w)).
Proof.
  intros Hw.
  assert (Hquiet : Quiet
    (with_clientRef None
       (match clientRef w with
        | Some client =>
            with_heap (alter (fun c => with_connected false (with_active false c))
                         client (heap w)) w
        | None => w
        end))).
  { split; [reflexivity|]. intros client cl Hcl.
    destruct (active cl) eqn:Hactive; [|reflexivity]. exfalso.
    destruct (clientRef w) as [held|] eqn:Href; simpl in Hcl.
    - destruct (decide (held = client)) as [->|Hne].
      + rewrite list_lookup_alter_eq in Hcl.
        destruct (heap w !! client); simplify_eq/=.
      + rewrite list_lookup_alter_ne in Hcl by exact Hne.
        specialize (Hw client cl Hcl Hactive). congruence.
    - specialize (Hw client cl Hcl Hactive). congruence. }
  revert Hquiet. apply Quiet_refs.
  - unfold disconnect, bind, modify, ret, setStatus, setPresence,
      Stomp.unsubscribe, Stomp.deactivate.
    destruct (roomSubscriptionRef w); cbn; by destruct (clientRef w).
  - unfold disconnect, bind, modify, ret, setStatus, setPresence,
      Stomp.unsubscribe, Stomp.deactivate.
    destruct (roomSubscriptionRef w); cbn; by destruct (clientRef w).
Qed.

Lemma Quiet_Owned w : Quiet w -> Owned w.
Proof. intros [_ Hoff] client cl Hcl Hactive. rewrite (Hoff _ _ Hcl) in Hactive. done. Qed.

Lemma Owned_disconnect : preserves Owned disconnect.
Proof. intros w Hw. by apply Quiet_Owned, disconnect_quiet. Qed.

Lemma Owned_connectAndJoin r : preserves Owned (connectAndJoin r).
Proof.
  intros w Hw. unfold connectAndJoin.
  assert (Hgo : Owned (world_of
    ((disconnect;; setError None;; setStatus Connecting;;
      client <- Stomp.new_Client 5000 r;;
      Stomp.activate client;;
      modify (with_clientRef (Some client))) w))).
  { pose proof (disconnect_quiet w Hw) as [Hnone Hoff].
    destruct (disconnect_run w) as (w1 & Hrun & _). rewrite Hrun in *.
    simpl in Hnone, Hoff.
    unfold bind at 1. rewrite Hrun.
    unfold bind, setError, setStatus, modify, Stomp.new_Client, Stomp.activate.
    cbn. intros client cl Hcl Hactive. cbn in *. f_equal.
    destruct (decide (client = length (heap w1))) as [->|Hne]; [reflexivity|].
    exfalso. rewrite list_lookup_alter_ne in Hcl by congruence.
    apply lookup_app_Some in Hcl as [Hcl|[Hge Hcl]].
    - rewrite (Hoff _ _ Hcl) in Hactive. discriminate.
    - apply list_lookup_singleton_Some in Hcl as [Hcl _]. lia. }
  destruct (status r); [exact Hgo | exact Hw | exact Hgo].
Qed.

Lemma Owned_stable : Stable Owned (fun _ => True).
Proof.
  split.
  - intros f w _ _. by apply Owned_refs.
  - intros v w. by apply Owned_refs.
  - intros n w. by apply Owned_refs.
  - intros client id destination cb w. by apply Owned_refs.
  - intros sub w. by apply Owned_refs.
  - intros r t client destination w _ _. by apply Owned_refs.
  - intros b client w Hw client' cl Hcl Hactive. simpl in *.
    destruct (decide (client = client')) as [->|Hne].
    + rewrite list_lookup_alter_eq in Hcl.
      destruct (heap w !! client') as [cl0|] eqn:Hcl0; simplify_eq/=.
      by apply (Hw client' cl0).
    + rewrite list_lookup_alter_ne in Hcl by exact Hne. by apply (Hw client' cl).
  - done.
  - done.
  - apply Owned_disconnect.
  - intros r _. apply Owned_connectAndJoin.
Qed.

Lemma Owned_reachable rev randomId now evs :
  Owned (run rev evs (mount rev randomId now)).
Proof.
  eapply stable_run; [apply Owned_stable|].
  intros client cl Hcl. simpl in Hcl. by rewrite lookup_nil in Hcl.
Qed.

(** From the click to the JOIN frame: the connection is opened from a world
    [w], the room field may be edited while the client connects, and the
    broker then accepts the connection.  The requests are those of the
    render that called [connectAndJoin]: they name [roomId (ui w)]. *)
Lemma connect_then_join rev now typed w :
  status (ui w) <> Connecting ->
  let client := length (heap w) in
  let w1 := run rev (ClickConnect :: map TypeRoomId typed) w in
  let w2 := step rev (BrokerConnected client now) w1 in
  wire w2
  = wire w1
    ++ [Subscribe client (nextSubscription w1)
          "/user/queue/room-presence" OnRoomPresenceQueue;
        Subscribe client (S (nextSubscription w1))
          "/user/queue/online-users" OnOnlineUsersQueue;
        Subscribe client (S (S (nextSubscription w1)))
          "/user/queue/system-stats" OnSystemStatsQueue;
        Subscribe client (S (S (S (nextSubscription w1))))
          ("/topic/room/" +:+ roomId (ui w)) OnRoomTopic;
        Publish client "/app/join" (frameOf (ui w) JOIN);
        Publish client "/app/room/presence" (frameOf (ui w) ROOM_PRESENCE);
        Publish client "/app/users/online" (frameOf (ui w) ONLINE_USERS);
        Publish client "/app/system/stats" (frameOf (ui w) SYSTEM)].
Proof.
  intros Hstatus. cbv zeta.
  destruct (connectAndJoin_installs (ui w) w Hstatus)
    as (w0 & Hrun & Href & Hheap & Hsub & _ & _).
  set (client := length (heap w)) in *.
  assert (Htyped : forall w0,
    clientRef w0 = Some client ->
    heap w0 !! client
      = Some {| reconnectDelay := 5000; render := ui w;
                active := true; connected := false |} ->
    roomSubscriptionRef w0 = None ->
    let w1 := run rev (map TypeRoomId typed) w0 in
    clientRef w1 = Some client
    /\ heap w1 !! client
       = Some {| reconnectDelay := 5000; render := ui w;
                 active := true; connected := false |}
    /\ roomSubscriptionRef w1 = None).
  { induction typed as [|v typed IH]; intros wa Ha Hb Hc; [by repeat split|].
    simpl. apply IH; assumption. }
  change (run rev (ClickConnect :: map TypeRoomId typed) w)
    with (run rev (map TypeRoomId typed) (world_of (connectAndJoin (ui w) w))).
  rewrite Hrun. simpl world_of.
  destruct (Htyped w0 Href Hheap Hsub) as (Href1 & Hheap1 & Hsub1).
  set (w1 := run rev (map TypeRoomId typed) w0) in *.
  unfold step. simpl handle. unfold on_active. rewrite Hheap1.
  cbn [active render]. unfold bind at 1, mark_connected at 1, modify at 1.
  set (w1' := with_heap (alter (with_connected true) client (heap w1)) w1).
  assert (Hconn : Stomp.is_connected client w1' = true).
  { unfold Stomp.is_connected, w1'. simpl.
    rewrite list_lookup_alter_eq, Hheap1. reflexivity. }
  destruct (onConnect_run (ui w) client now w1' Href1 Hconn)
    as (w2 & -> & Hwire & _).
  simpl. rewrite Hwire. unfold connectRequests, closePrevious.
  replace (roomSubscriptionRef w1') with (roomSubscriptionRef w1) by reflexivity.
  rewrite Hsub1. reflexivity.
Qed.

(** ** A client keeps the closures it was built with *)

Lemma Built_refs client r w w' :
  heap w' = heap w -> Built client r w -> Built client r w'.
Proof. intros Hheap (cl & Hcl & Hr). exists cl. by rewrite Hheap. Qed.

Lemma Built_alter client r g c w :
  (forall cl, render (g cl) = render cl) ->
  Built client r w -> Built client r (with_heap (alter g c (heap w)) w).
Proof.
  intros Hg (cl & Hcl & Hr). simpl.
  destruct (decide (c = client)) as [->|Hne].
  - exists (g cl). unfold Built. simpl. rewrite list_lookup_alter_eq, Hcl. simpl.
    by rewrite Hg.
  - exists cl. unfold Built. simpl. by rewrite list_lookup_alter_ne.
Qed.

Lemma Built_disconnect client r : preserves (Built client r) disconnect.
Proof.
  intros w Hw.
  unfold disconnect, bind, modify, ret, setStatus, setPresence,
    Stomp.unsubscribe, Stomp.deactivate.
  destruct (roomSubscriptionRef w) as [sub|]; cbn;
    destruct (clientRef w) as [held|]; cbn.
  all: try (apply (Built_refs client r w); [reflexivity | exact Hw]).
  all: apply (Built_refs client r
         (with_heap (alter (fun c => with_connected false (with_active false c))
                       held (heap w)) w)); [reflexivity|];
       by apply Built_alter.
Qed.

Lemma Built_connectAndJoin client r r' : preserves (Built client r) (connectAndJoin r').
Proof.
  intros w Hw. unfold connectAndJoin.
  assert (Hgo : Built client r (world_of
    ((disconnect;; setError None;; setStatus Connecting;;
      c <- Stomp.new_Client 5000 r';;
      Stomp.activate c;;
      modify (with_clientRef (Some c))) w))).
  { pose proof (Built_disconnect client r w Hw) as Hd.
    destruct (disconnect_run w) as (w1 & Hrun & _). rewrite Hrun in Hd.
    simpl in Hd. unfold bind at 1. rewrite Hrun.
    unfold bind, setError, setStatus, modify, Stomp.new_Client, Stomp.activate.
    cbn. destruct Hd as (cl & Hcl & Hr).
    destruct (decide (length (heap w1) = client)) as [Heq|Hne].
    - apply lookup_lt_Some in Hcl. lia.
    - exists cl. cbn. rewrite list_lookup_alter_ne by exact Hne.
      split; [|exact Hr]. apply lookup_app_l_Some. exact Hcl. }
  destruct (status r'); [exact Hgo | exact Hw | exact Hgo].
Qed.

Lemma Built_stable client r : Stable (Built client r) (fun _ => True).
Proof.
  split.
  - intros f w _ _. by apply Built_refs.
  - intros v w. by apply Built_refs.
  - intros n w. by apply Built_refs.
  - intros c id destination cb w. by apply Built_refs.
  - intros sub w. by apply Built_refs.
  - intros r0 t c destination w _ _. by apply Built_refs.
  - intros b c w Hw. by apply Built_alter.
  - done.
  - done.
  - apply Built_disconnect.
  - intros r0 _. apply Built_connectAndJoin.
Qed.

Lemma run_app rev evs1 evs2 w :
  run rev (evs1 ++ evs2) w = run rev evs2 (run rev evs1 w).
Proof. unfold run. apply fold_left_app. Qed.

(** The library runs the [onConnect] closure of an active client of the
    mounted console: the requests are those of the render the closure
    belongs to. *)
Lemma active_client_connects rev randomId start evs client cl now :
  let w := run rev evs (mount rev randomId start) in
  heap w !! client = Some cl ->
  active cl = true ->
  let o := onConnect (render cl) client now
             (with_heap (alter (with_connected true) client (heap w)) w) in
  step rev (BrokerConnected client now) w = world_of o
  /\ wire (world_of o) = wire w ++ connectRequests (render cl) client w
  /\ (forall q, q ∈ userQueues ->
        exists id cb,
          Subscribe client id q cb ∈ connectRequests (render cl) client w)
  /\ (exists id,
        Subscribe client id ("/topic/room/" +:+ roomId (render cl)) OnRoomTopic
          ∈ connectRequests (render cl) client w)
  /\ Publish client "/app/join"
       [("roomId", JStr (roomId (render cl)));
        ("userId", JStr (userId (render cl)));
        ("username", JStr (username (render cl)));
        ("type", JStr "JOIN")]
     ∈ connectRequests (render cl) client w
  /\ status (ui (world_of o)) = Connected.
Proof.
  intros w Hcl Hactive. cbv zeta.
  pose proof (Owned_reachable rev randomId start evs client cl Hcl Hactive)
    as Href.
  fold w in Href.
  set (w1 := with_heap (alter (with_connected true) client (heap w)) w).
  assert (Hconn : Stomp.is_connected client w1 = true).
  { unfold Stomp.is_connected, w1. simpl.
    by rewrite list_lookup_alter_eq, Hcl. }
  split.
  { unfold step. simpl. unfold on_active. by rewrite Hcl, Hactive. }
  destruct (onConnect_requests (render cl) client now w1 Href Hconn)
    as (_ & Hwire & Hqueues & Htopic & Hjoin & Hstatus).
  repeat split; assumption.
Qed.

(** C1, as the page has it.  [connectAndJoin] is called on the mounted
    console (the connect button, with a status other than connecting) and
    builds a client; whatever happens afterwards, when the broker accepts a
    connection of that client while it is still active, its [onConnect]
    closure asks the transport, in this order, for the three per-connection
    queues, for the topic [/topic/room/{roomId}], and for a JOIN frame on
    [/app/join] naming that room (then for the three snapshots).  [roomId]
    is the value of the room cell when [connectAndJoin] was called, which
    the closure captured, whatever that value was and whatever the cell
    holds at connect time. *)
Theorem connect_subscribes_and_joins rev randomId start before after cl now :
  let w0 := run rev before (mount rev randomId start) in
  let client := length (heap w0) in
  let w := run rev (ClickConnect :: after) w0 in
  status (ui w0) <> Connecting ->
  heap w !! client = Some cl ->
  active cl = true ->
  let w' := step rev (BrokerConnected client now) w in
  render cl = ui w0
  /\ wire w' = wire w ++ connectRequests (ui w0) client w
  /\ (forall q, q ∈ userQueues ->
        exists id cb,
          Subscribe client id q cb ∈ connectRequests (ui w0) client w)
  /\ (exists id,
        Subscribe client id ("/topic/room/" +:+ roomId (ui w0)) OnRoomTopic
          ∈ connectRequests (ui w0) client w)
  /\ Publish client "/app/join"
       [("roomId", JStr (roomId (ui w0)));
        ("userId", JStr (userId (ui w0)));
        ("username", JStr (username (ui w0)));
        ("type", JStr "JOIN")]
     ∈ connectRequests (ui w0) client w
  /\ status (ui w') = Connected.
Proof.
  intros w0 client w Hstatus Hcl Hactive. cbv zeta.
  assert (Hrender : render cl = ui w0).
  { destruct (connectAndJoin_installs (ui w0) w0 Hstatus)
      as (w1 & Hrun & _ & Hheap & _).
    assert (Hbuilt : Built client (ui w0) w1) by (eexists; split; [exact Hheap|reflexivity]).
    apply (stable_run _ _ (Built_stable client (ui w0)) rev after) in Hbuilt.
    replace (run rev after w1) with w in Hbuilt.
    2:{ unfold w.
        change (run rev (ClickConnect :: after) w0)
          with (run rev after (world_of (connectAndJoin (ui w0) w0))).
        by rewrite Hrun. }
    destruct Hbuilt as (cl' & Hcl' & Hr). congruence. }
  assert (Hw : w = run rev (before ++ ClickConnect :: after) (mount rev randomId start)).
  { unfold w, w0. by rewrite run_app. }
  clearbody w. subst w.
  destruct (active_client_connects rev randomId start
              (before ++ ClickConnect :: after) client cl now Hcl Hactive)
    as (Hstep & Hwire & Hqueues & Htopic & Hjoin & Hst).
  rewrite Hrender in *. rewrite Hstep.
  repeat split; assumption.
Qed.

Lemma connect_subscribes_and_joins_witness :
  status (ui (run PageTsx [TypeRoomId "ops"] offlineWorld)) <> Connecting
  /\ wire (step PageTsx (BrokerConnected 0 "2024-05-01T10:00:00.000Z")
             (run PageTsx [ClickConnect; TypeUsername "Ada"]
                (run PageTsx [TypeRoomId "ops"] offlineWorld)))
     = [Activate 0;
        Subscribe 0 0 "/user/queue/room-presence" OnRoomPresenceQueue;
        Subscribe 0 1 "/user/queue/online-users" OnOnlineUsersQueue;
        Subscribe 0 2 "/user/queue/system-stats" OnSystemStatsQueue;
        Subscribe 0 3 "/topic/room/ops" OnRoomTopic;
        Publish 0 "/app/join"
          [("roomId", JStr "ops"); ("userId", JStr "a1b2c3d4");
           ("username", JStr "Thomas Abas"); ("type", JStr "JOIN")];
        Publish 0 "/app/room/presence"
          [("roomId", JStr "ops"); ("userId", JStr "a1b2c3d4");
           ("username", JStr "Thomas Abas"); ("type", JStr "ROOM_PRESENCE")];
        Publish 0 "/app/users/online"
          [("roomId", JStr "ops"); ("userId", JStr "a1b2c3d4");
           ("username", JStr "Thomas Abas"); ("type", JStr "ONLINE_USERS")];
        Publish 0 "/app/system/stats"
          [("roomId", JStr "ops"); ("userId", JStr "a1b2c3d4");
           ("username", JStr "Thomas Abas"); ("type", JStr "SYSTEM")]].
Proof.
  split; [discriminate|].
  exact (proj1 (proj2 (connect_subscribes_and_joins PageTsx "a1b2c3d4" 0
                  [TypeRoomId "ops"] [TypeUsername "Ada"] _
                  "2024-05-01T10:00:00.000Z"
                  ltac:(discriminate) eq_refl eq_refl))).
Defined.

(** C1, as stated, fails when the room field is edited between the click
    and the connect: the cell holds [eng] at connect time, and [onConnect]
    subscribes to the topic of [mission-control] and joins
    [mission-control]. *)
Lemma connect_ignores_room_edit :
  roomId (ui editedWorld) = "eng"
  /\ status (ui editedWorld) = Connecting
  /\ wire (step PageTsx (BrokerConnected 0 "2024-05-01T10:00:00.000Z") editedWorld)
     = [Activate 0;
        Subscribe 0 0 "/user/queue/room-presence" OnRoomPresenceQueue;
        Subscribe 0 1 "/user/queue/online-users" OnOnlineUsersQueue;
        Subscribe 0 2 "/user/queue/system-stats" OnSystemStatsQueue;
        Subscribe 0 3 "/topic/room/mission-control" OnRoomTopic;
        Publish 0 "/app/join"
          [("roomId", JStr "mission-control"); ("userId", JStr "a1b2c3d4");
           ("username", JStr "Thomas Abas"); ("type", JStr "JOIN")];
        Publish 0 "/app/room/presence"
          [("roomId", JStr "mission-control"); ("userId", JStr "a1b2c3d4");
           ("username", JStr "Thomas Abas"); ("type", JStr "ROOM_PRESENCE")];
        Publish 0 "/app/users/online"
          [("roomId", JStr "mission-control"); ("userId", JStr "a1b2c3d4");
           ("username", JStr "Thomas Abas"); ("type", JStr "ONLINE_USERS")];
        Publish 0 "/app/system/stats"
          [("roomId", JStr "mission-control"); ("userId", JStr "a1b2c3d4");
           ("username", JStr "Thomas Abas"); ("type", JStr "SYSTEM")]]
  /\ roomId (ui (step PageTsx (BrokerConnected 0 "2024-05-01T10:00:00.000Z")
                   editedWorld)) = "eng"
  /\ ~ (exists id,
          Subscribe 0 id ("/topic/room/" +:+ roomId (ui editedWorld)) OnRoomTopic
          ∈ wire (step PageTsx (BrokerConnected 0 "2024-05-01T10:00:00.000Z")
                    editedWorld))
  /\ ~ (exists body,
          Publish 0 "/app/join" body
          ∈ wire (step PageTsx (BrokerConnected 0 "2024-05-01T10:00:00.000Z")
                    editedWorld)
          /\ json_field "roomId" body = Some (JStr (roomId (ui editedWorld)))).
Proof.
  assert (Hwire :
    wire (step PageTsx (BrokerConnected 0 "2024-05-01T10:00:00.000Z") editedWorld)
     = [Activate 0;
        Subscribe 0 0 "/user/queue/room-presence" OnRoomPresenceQueue;
        Subscribe 0 1 "/user/queue/online-users" OnOnlineUsersQueue;
        Subscribe 0 2 "/user/queue/system-stats" OnSystemStatsQueue;
        Subscribe 0 3 "/topic/room/mission-control" OnRoomTopic;
        Publish 0 "/app/join"
          [("roomId", JStr "mission-control"); ("userId", JStr "a1b2c3d4");
           ("username", JStr "Thomas Abas"); ("type", JStr "JOIN")];
        Publish 0 "/app/room/presence"
          [("roomId", JStr "mission-control"); ("userId", JStr "a1b2c3d4");
           ("username", JStr "Thomas Abas"); ("type", JStr "ROOM_PRESENCE")];
        Publish 0 "/app/users/online"
          [("roomId", JStr "mission-control"); ("userId", JStr "a1b2c3d4");
           ("username", JStr "Thomas Abas"); ("type", JStr "ONLINE_USERS")];
        Publish 0 "/app/system/stats"
          [("roomId", JStr "mission-control"); ("userId", JStr "a1b2c3d4");
           ("username", JStr "Thomas Abas"); ("type", JStr "SYSTEM")]])
    by reflexivity.
  split; [reflexivity|]. split; [reflexivity|]. split; [exact Hwire|].
  split; [reflexivity|]. rewrite Hwire.
  change (roomId (ui editedWorld)) with "eng".
  split.
  - intros [id Hin].
    repeat (apply elem_of_cons in Hin as [Hin|Hin]; [discriminate Hin|]).
    by apply elem_of_nil in Hin.
  - intros (body & Hin & Hroom).
    repeat (apply elem_of_cons in Hin as [Hin|Hin];
            [first [discriminate Hin | injection Hin as ->; discriminate Hroom]|]).
    by apply elem_of_nil in Hin.
Qed.

(** ** Frames on the wire *)

Lemma outgoing_username r body :
  json_field "username" (JSON_stringify (outgoing r body))
  = match Wire.username body with
    | Absent => Some (JStr (username r))
    | Undefined => None
    | Present v => Some (JStr v)
    end.
Proof.
  unfold JSON_stringify, outgoing; simpl.
  destruct (Wire.roomId body), (Wire.userId body), (Wire.username body),
    (Wire.content body), (Wire.data body), (Wire.timestamp body);
    reflexivity.
Qed.

Lemma outgoing_roomId r body :
  json_field "roomId" (JSON_stringify (outgoing r body))
  = match Wire.roomId body with
    | Absent => Some (JStr (roomId r))
    | Undefined => None
    | Present v => Some (JStr v)
    end.
Proof.
  unfold JSON_stringify, outgoing; simpl.
  destruct (Wire.roomId body), (Wire.userId body), (Wire.username body),
    (Wire.content body), (Wire.data body), (Wire.timestamp body);
    reflexivity.
Qed.

Lemma outgoing_type r body :
  json_field "type" (JSON_stringify (outgoing r body))
  = Some (JStr (MessageType_name (Wire.type body))).
Proof.
  unfold JSON_stringify, outgoing; simpl.
  destruct (Wire.roomId body), (Wire.userId body), (Wire.username body),
    (Wire.content body), (Wire.data body), (Wire.timestamp body);
    reflexivity.
Qed.

(** C3. Whatever happens to the mounted console, every frame it has
    published went to one of [/app/join], [/app/leave], [/app/ping],
    [/app/room/presence], [/app/users/online], [/app/system/stats], and its
    JSON body has the members [userId], [username], [roomId] and [type].
    The body is the caller's object merged over the three cells: a member
    the caller leaves out takes the value of the cell, and every caller in
    the page passes [{ type }] alone. *)
Theorem published_frames_addressed rev randomId now evs :
  Forall frame_addressed (wire (run rev evs (mount rev randomId now)))
  /\ (forall r t,
        JSON_stringify (outgoing r (Wire.only_type t))
        = [("roomId", JStr (roomId r)); ("userId", JStr (userId r));
           ("username", JStr (username r)); ("type", JStr (MessageType_name t))])
  /\ (forall r body,
        json_field "roomId" (JSON_stringify (outgoing r body))
        = match Wire.roomId body with
          | Absent => Some (JStr (roomId r))
          | Undefined => None
          | Present v => Some (JStr v)
          end
        /\ json_field "userId" (JSON_stringify (outgoing r body))
           = match Wire.userId body with
             | Absent => Some (JStr (userId r))
             | Undefined => None
             | Present v => Some (JStr v)
             end
        /\ json_field "username" (JSON_stringify (outgoing r body))
           = match Wire.username body with
             | Absent => Some (JStr (username r))
             | Undefined => None
             | Present v => Some (JStr v)
             end
        /\ json_field "type" (JSON_stringify (outgoing r body))
           = Some (JStr (MessageType_name (Wire.type body)))).
Proof.
  split.
  - pose proof (Sound_reachable rev randomId now evs) as [_ _ _ Hwire].
    eapply Forall_impl; [exact Hwire|]. by intros a [Ha _].
  - split; [intros; apply frameOf_members|].
    intros r body.
    split; [apply outgoing_roomId|].
    split; [apply outgoing_userId|].
    split; [apply outgoing_username | apply outgoing_type].
Qed.

(** C4. Whatever happens to the mounted console, every frame it has
    published carries a [userId] member, and it is the id drawn when the
    component mounted. *)
Theorem published_frames_carry_userId rev randomId now evs :
  Forall (frame_from randomId) (wire (run rev evs (mount rev randomId now))).
Proof.
  pose proof (Sound_reachable rev randomId now evs) as [_ _ _ Hwire].
  eapply Forall_impl; [exact Hwire|]. by intros a [_ Ha].
Qed.

(** C9. [addLog] puts the new entry in front of the first 29 entries of the
    log, so the log has at most 30 entries and starts with the new entry;
    after any series of [addLog] calls the log has at most 30 entries and
    starts with the entry added last; and the log of the mounted console
    never has more than 30 entries. *)
Theorem addLog_newest_first_bounded now entry w calls :
  logs (ui (world_of (addLog now entry w)))
  = logEntry now entry :: take 29 (logs (ui w))
  /\ length (logs (ui (world_of (addLog now entry w)))) <= 30
  /\ length (logs (ui (addLogs (calls ++ [(now, entry)]) w))) <= 30
  /\ head (logs (ui (addLogs (calls ++ [(now, entry)]) w)))
     = Some (logEntry now entry)
  /\ (forall rev randomId start evs,
        length (logs (ui (run rev evs (mount rev randomId start)))) <= 30).
Proof.
  split; [reflexivity|].
  split; [apply pushLog_length|].
  rewrite addLogs_logs, pushLogs_snoc.
  split; [apply pushLog_length|].
  split; [apply pushLog_head|].
  intros rev randomId start evs.
  by destruct (Sound_reachable rev randomId start evs).
Qed.

(** ** The handlers on sample worlds *)

Lemma sendMessage_guard_witness :
  (canSend offlineWorld = false
   /\ wire (world_of (sendMessage (ui offlineWorld) "/app/ping"
                        (Wire.only_type PING) offlineWorld))
      = wire offlineWorld
   /\ error (ui (world_of (sendMessage (ui offlineWorld) "/app/ping"
                             (Wire.only_type PING) offlineWorld)))
      = Some "Connect first to send messages.")
  /\ (canSend liveWorld = true
      /\ exists client,
           clientRef liveWorld = Some client
           /\ wire (world_of (sendMessage (ui liveWorld) "/app/ping"
                                (Wire.only_type PING) liveWorld))
              = wire liveWorld
                ++ [Publish client "/app/ping"
                      (JSON_stringify
                         (outgoing (ui liveWorld) (Wire.only_type PING)))]).
Proof.
  split.
  - split; [reflexivity|].
    destruct (sendMessage_guard (ui offlineWorld) "/app/ping"
                (Wire.only_type PING) offlineWorld) as (_ & Hoff & _).
    destruct (Hoff eq_refl) as (Hwire & Herror & _).
    split; [exact Hwire | exact Herror].
  - split; [reflexivity|].
    destruct (sendMessage_guard (ui liveWorld) "/app/ping"
                (Wire.only_type PING) liveWorld) as (_ & _ & Hon).
    destruct (Hon eq_refl) as (client & Href & Hwire & _).
    exists client. split; [exact Href | exact Hwire].
Defined.

Lemma switchRoom_resubscribes_then_joins_witness :
  (status (with_roomId "eng" (ui liveWorld)) = Connected
   /\ clientRef liveWorld = Some 0
   /\ Stomp.is_connected 0 liveWorld = true
   /\ wire (world_of (switchRoom (with_roomId "eng" (ui liveWorld))
                        "2024-05-01T10:05:00.000Z" liveWorld))
      = wire liveWorld
        ++ [Unsubscribe {| sub_client := 0; sub_id := 3 |};
            Subscribe 0 4 "/topic/room/eng" OnRoomTopic;
            Publish 0 "/app/join"
              (frameOf (with_roomId "eng" (ui liveWorld)) JOIN);
            Publish 0 "/app/room/presence"
              (frameOf (with_roomId "eng" (ui liveWorld)) ROOM_PRESENCE)])
  /\ (status (ui offlineWorld) <> Connected
      /\ wire (world_of (switchRoom (ui offlineWorld)
                           "2024-05-01T10:05:00.000Z" offlineWorld))
         = wire offlineWorld
      /\ error (ui (world_of (switchRoom (ui offlineWorld)
                                "2024-05-01T10:05:00.000Z" offlineWorld)))
         = Some "Connect first, then switch rooms.").
Proof.
  split.
  - split; [reflexivity|]. split; [reflexivity|]. split; [reflexivity|].
    destruct (switchRoom_resubscribes_then_joins
                (with_roomId "eng" (ui liveWorld))
                "2024-05-01T10:05:00.000Z" liveWorld) as (Hon & _).
    destruct (Hon eq_refl 0 eq_refl eq_refl) as (_ & Hwire & _).
    exact Hwire.
  - split; [discriminate|].
    destruct (switchRoom_resubscribes_then_joins (ui offlineWorld)
                "2024-05-01T10:05:00.000Z" offlineWorld) as (_ & Hoff).
    destruct (Hoff ltac:(discriminate)) as (_ & Hwire & Herror & _).
    split; [exact Hwire | exact Herror].
Defined.

(** * Properties of the presence engine *)

Module BackendFacts.
Import Backend.

(** ** The Room Directory *)

Lemma members_insert (r r' : string) (m : gset string)
    (d : gmap string (gset string)) :
  members r' (<[r := m]> d) = if decide (r' = r) then m else members r' d.
Proof.
  unfold members at 1. destruct (decide (r' = r)) as [->|Hr].
  - by rewrite lookup_insert_eq.
  - by rewrite lookup_insert_ne.
Qed.

Lemma members_join (r u r' : string) (d : gmap string (gset string)) :
  members r' (join r u d).1
  = if decide (r' = r) then {[u]} ∪ members r d else members r' d.
Proof. apply members_insert. Qed.

Lemma members_leave eager (r u r' : string) (d : gmap string (gset string)) :
  members r' (leave eager r u d).1
  = if decide (r' = r) then members r d ∖ {[u]} else members r' d.
Proof.
  unfold leave. destruct (d !! r) as [m|] eqn:Hm; simpl.
  - assert (Hmem : members r d = m) by (unfold members; by rewrite Hm).
    destruct (decide (u ∈ m)) as [Hin|Hout].
    + destruct (eager && bool_decide (m ∖ {[u]} = ∅)) eqn:Hgc.
      * apply andb_true_iff in Hgc as [_ Hempty].
        apply bool_decide_eq_true in Hempty.
        unfold members at 1. destruct (decide (r' = r)) as [->|Hr].
        -- rewrite lookup_delete_eq, Hmem, Hempty. reflexivity.
        -- by rewrite lookup_delete_ne.
      * unfold members at 1. destruct (decide (r' = r)) as [->|Hr].
        -- by rewrite lookup_insert_eq, Hmem.
        -- by rewrite lookup_insert_ne.
    + destruct (decide (r' = r)) as [->|Hr]; [|reflexivity].
      rewrite Hmem. set_solver.
  - destruct (decide (r' = r)) as [->|Hr]; [|reflexivity].
    unfold members. rewrite Hm. set_solver.
Qed.

Lemma leave_not_member eager (r u : string) (d : gmap string (gset string)) :
  u ∉ members r d -> (leave eager r u d).1 = d.
Proof.
  unfold leave, members. intros Hout.
  destruct (d !! r) as [m|]; simpl in *; [|reflexivity].
  by rewrite decide_False.
Qed.

(** C6, as the engine has it.  For a user who is not yet a member of the
    room, [join] followed at once by [leave] gives every room, and that
    room first of all, the member set it had before the JOIN, whichever
    way empty rooms are collected. *)
Theorem join_leave_round_trip eager (r u : string)
    (d : gmap string (gset string)) :
  u ∉ members r d ->
  forall r', members r' (leave eager r u (join r u d).1).1 = members r' d.
Proof.
  intros Hout r'. rewrite members_leave.
  destruct (decide (r' = r)) as [->|Hr].
  - rewrite members_join, decide_True by reflexivity. set_solver.
  - rewrite members_join, decide_False by exact Hr. reflexivity.
Qed.

(** C6, as stated, fails for a user who is already in the room: alice is
    in room "ops"; joining again changes nothing and leaving removes her. *)
Lemma join_leave_round_trip_fails_for_member :
  members "ops"
    (leave true "ops" "alice"
       (join "ops" "alice" {["ops" := {["alice"]}]}).1).1
  <> members "ops" {["ops" := {["alice"]}]}.
Proof.
  rewrite members_leave, decide_True by reflexivity.
  rewrite members_join, decide_True by reflexivity.
  unfold members. rewrite lookup_singleton_eq. simpl.
  intros Heq.
  assert (Hin : "alice" ∈ ({["alice"]} : gset string)) by set_solver.
  rewrite <- Heq in Hin. set_solver.
Qed.

(** ** The Registry under one request *)

Lemma room_of_touch c c' now (s : PresenceState) d :
  room_of c' (mkState (touch c now (registry s)) d) = room_of c' s.
Proof.
  unfold room_of, touch. simpl.
  destruct (decide (c = c')) as [->|Hne].
  - rewrite lookup_alter_eq. by destruct (registry s !! c').
  - by rewrite lookup_alter_ne.
Qed.

Lemma room_of_set_room c room now (s : PresenceState) conn d :
  registry s !! c = Some conn ->
  room_of c (mkState (set_room c room (touch c now (registry s))) d) = room.
Proof.
  intros Hc. unfold room_of, set_room, touch. simpl.
  rewrite !lookup_alter_eq, Hc. reflexivity.
Qed.

Lemma userId_touch c now (reg : gmap nat Connection) :
  (touch c now reg !! c ≫= c_userId) = (reg !! c ≫= c_userId).
Proof. unfold touch. rewrite lookup_alter_eq. by destruct (reg !! c). Qed.

Lemma userId_set_room c room (reg : gmap nat Connection) :
  (set_room c room reg !! c ≫= c_userId) = (reg !! c ≫= c_userId).
Proof. unfold set_room. rewrite lookup_alter_eq. by destruct (reg !! c). Qed.

(** LEAVE of a room that is not the current room of the connection. *)
Lemma handle_leave_other eager c r now (s : PresenceState) :
  room_of c s <> Some r ->
  handle eager c (Leave r) now s
  = match registry s !! c with
    | Some _ => (mkState (touch c now (registry s)) (directory s), [])
    | None => (s, [])
    end.
Proof.
  unfold room_of, handle. intros Hroom.
  destruct (registry s !! c) as [conn|]; simpl in *; [|reflexivity].
  destruct (c_roomId conn) as [cur|]; [|reflexivity].
  destruct (c_userId conn); [|reflexivity].
  destruct (decide (cur = r)) as [->|]; [congruence|reflexivity].
Qed.

(** A request other than JOIN of [r] does not bring the connection into
    [r]. *)
Lemma handle_not_joined eager c r req now (s : PresenceState) :
  req <> Join r ->
  room_of c s <> Some r ->
  room_of c (handle eager c req now s).1 <> Some r.
Proof.
  intros Hreq Hroom. unfold handle.
  destruct (registry s !! c) as [conn|] eqn:Hc; [|exact Hroom].
  assert (Hcur : c_roomId conn <> Some r).
  { unfold room_of in Hroom. by rewrite Hc in Hroom. }
  destruct req as [r'|r'|]; simpl.
  - destruct (c_userId conn); simpl.
    + erewrite room_of_set_room by exact Hc. congruence.
    + by rewrite room_of_touch.
  - destruct (c_roomId conn) as [cur|], (c_userId conn);
      try (simpl; by rewrite room_of_touch).
    destruct (decide (cur = r')); simpl.
    + erewrite room_of_set_room by exact Hc. congruence.
    + by rewrite room_of_touch.
  - by rewrite room_of_touch.
Qed.

Lemma handleAll_snoc eager c reqs req now (s : PresenceState) :
  (handleAll eager c (reqs ++ [(req, now)]) s).1
  = (handle eager c req now (handleAll eager c reqs s).1).1.
Proof.
  unfold handleAll. rewrite fold_left_app. simpl.
  by destruct (handle eager c req now _).
Qed.

Lemma handleAll_not_joined eager c r reqs (s : PresenceState) :
  Forall (fun q => q.1 <> Join r) reqs ->
  room_of c s <> Some r ->
  room_of c (handleAll eager c reqs s).1 <> Some r.
Proof.
  induction reqs as [|[req now] reqs IH] using rev_ind; intros Hreqs Hroom.
  - exact Hroom.
  - apply Forall_app in Hreqs as [Hreqs Hlast].
    rewrite Forall_singleton in Hlast.
    rewrite handleAll_snoc. apply handle_not_joined; [exact Hlast|].
    by apply IH.
Qed.

(** C7, as the engine has it.  A connection that was not in room [r] and
    has sent no JOIN for it since sends LEAVE for [r], whether the room
    exists or not: the Directory does not change, no other connection's
    entry changes, the connection's own entry changes in [lastSeen] at
    most, and nothing is sent back, so no error either. *)
Theorem leave_never_joined_room eager c r history now (s : PresenceState) :
  room_of c s <> Some r ->
  Forall (fun q => q.1 <> Join r) history ->
  let before := (handleAll eager c history s).1 in
  let after := handle eager c (Leave r) now before in
  directory after.1 = directory before
  /\ (forall c', c' <> c -> registry after.1 !! c' = registry before !! c')
  /\ option_Forall2 same_but_lastSeen
       (registry before !! c) (registry after.1 !! c)
  /\ after.2 = []
  /\ forallb (fun o => negb (is_error o)) after.2 = true.
Proof.
  intros Hroom Hhistory. cbv zeta.
  pose proof (handleAll_not_joined eager c r history s Hhistory Hroom) as Hnot.
  rewrite handle_leave_other by exact Hnot.
  destruct (registry (handleAll eager c history s).1 !! c) as [conn|] eqn:Hc;
    simpl.
  - split; [reflexivity|]. split.
    { intros c' Hne. unfold touch. by rewrite lookup_alter_ne. }
    split; [|by split].
    unfold touch. rewrite lookup_alter_eq, Hc. simpl.
    constructor. by repeat split.
  - split; [reflexivity|]. split; [reflexivity|].
    split; [|by split]. rewrite Hc. constructor.
Qed.

(** C7, as stated, fails on the Registry: a fresh connection registered at
    time 0 sends LEAVE for a room that does not exist at time 5, and its
    [lastSeen] moves to 5. *)
Lemma leave_never_joined_room_touches_registry :
  let s := mkState (register 0 0 ∅) ∅ in
  room_of 0 s <> Some "ops"
  /\ directory s !! "ops" = None
  /\ (handle true 0 (Leave "ops") 5 s).1 <> s
  /\ registry (handle true 0 (Leave "ops") 5 s).1 !! 0
     = Some (mkConnection None None None 5 true).
Proof.
  cbv zeta.
  assert (Hroom : room_of 0 (mkState (register 0 0 ∅) ∅) <> Some "ops").
  { unfold room_of, register. simpl. by rewrite lookup_insert_eq. }
  assert (Hafter :
    registry (handle true 0 (Leave "ops") 5 (mkState (register 0 0 ∅) ∅)).1 !! 0
    = Some (mkConnection None None None 5 true)).
  { rewrite handle_leave_other by exact Hroom.
    unfold register at 1. simpl. rewrite lookup_insert_eq. simpl.
    unfold touch, register. by rewrite lookup_alter_eq, lookup_insert_eq. }
  split; [exact Hroom|]. split; [reflexivity|]. split; [|exact Hafter].
  intros Heq. rewrite Heq in Hafter. simpl in Hafter.
  unfold register in Hafter. rewrite lookup_insert_eq in Hafter.
  discriminate.
Qed.

(** ** One room at a time *)

Lemma single_room_handle eager c u req now (s : PresenceState) :
  single_room c u s -> single_room c u (handle eager c req now s).1.
Proof.
  intros [(conn & Hc & Hu) Hrooms]. unfold handle. rewrite Hc.
  assert (Hcur : room_of c s = c_roomId conn).
  { unfold room_of. by rewrite Hc. }
  assert (Hid : forall reg d,
    (reg !! c ≫= c_userId) = Some u ->
    exists conn', registry (mkState reg d) !! c = Some conn'
                  /\ c_userId conn' = Some u).
  { intros reg d Hreg. simpl. destruct (reg !! c) as [conn'|]; [|done].
    exists conn'. by split. }
  assert (Htouched : (touch c now (registry s) !! c ≫= c_userId) = Some u).
  { by rewrite userId_touch, Hc. }
  destruct req as [r|r|]; simpl.
  - rewrite Hu. simpl. split.
    { apply Hid. by rewrite userId_set_room. }
    intros r' Hin. erewrite room_of_set_room by exact Hc.
    cbn [directory] in Hin. unfold join in Hin. cbn [fst] in Hin.
    rewrite members_insert in Hin.
    destruct (decide (r' = r)) as [->|Hne]; [reflexivity|]. exfalso.
    destruct (c_roomId conn) as [old|] eqn:Hold.
    + destruct (decide (old = r)) as [->|Hor].
      * apply Hrooms in Hin. congruence.
      * rewrite members_leave in Hin.
        destruct (decide (r' = old)) as [->|Hro]; [set_solver|].
        apply Hrooms in Hin. congruence.
    + apply Hrooms in Hin. congruence.
  - rewrite Hu. destruct (c_roomId conn) as [cur|] eqn:Hold.
    + destruct (decide (cur = r)) as [->|Hne]; simpl.
      * split; [apply Hid; by rewrite userId_set_room|].
        intros r' Hin. exfalso. cbn [directory] in Hin.
        rewrite members_leave in Hin.
        destruct (decide (r' = r)) as [->|Hr]; [set_solver|].
        apply Hrooms in Hin. congruence.
      * split; [by apply Hid|].
        intros r' Hin. rewrite room_of_touch. by apply Hrooms.
    + simpl. split; [by apply Hid|].
      intros r' Hin. rewrite room_of_touch. by apply Hrooms.
  - split; [by apply Hid|].
    intros r' Hin. rewrite room_of_touch. by apply Hrooms.
Qed.

Lemma single_room_handleAll eager c u reqs (s : PresenceState) :
  single_room c u s -> single_room c u (handleAll eager c reqs s).1.
Proof.
  induction reqs as [|[req now] reqs IH] using rev_ind; intros Hs.
  - exact Hs.
  - rewrite handleAll_snoc. apply single_room_handle. by apply IH.
Qed.

(** C5.  A connection claiming user [u] that starts with [u] in no room
    but its own current one sends any series of JOIN, LEAVE and PING
    requests: after each of them the user is a member of at most one room,
    and that room is the current room of the connection. *)
Theorem at_most_one_room eager c u reqs (s : PresenceState) :
  single_room c u s ->
  let s' := (handleAll eager c reqs s).1 in
  (forall r1 r2,
     u ∈ snap_users (snapshot r1 (directory s')) ->
     u ∈ snap_users (snapshot r2 (directory s')) ->
     r1 = r2)
  /\ (forall r, u ∈ members r (directory s') -> room_of c s' = Some r).
Proof.
  intros Hs. cbv zeta.
  destruct (single_room_handleAll eager c u reqs s Hs) as [_ Hrooms].
  split; [|exact Hrooms].
  intros r1 r2 H1 H2. simpl in H1, H2.
  apply Hrooms in H1. apply Hrooms in H2. congruence.
Qed.

(** A room switch, seen from outside: JOIN of another room takes the user
    out of the room joined before. *)
Lemma switch_leaves_previous_room eager c u old r now (s : PresenceState) :
  single_room c u s ->
  room_of c s = Some old ->
  old <> r ->
  let s' := (handle eager c (Join r) now s).1 in
  (u ∉ members old (directory s')) /\ (u ∈ members r (directory s')).
Proof.
  intros [(conn & Hc & Hu) Hrooms] Hold Hne. cbv zeta.
  unfold handle. rewrite Hc. simpl. rewrite Hu. simpl.
  unfold room_of in Hold. rewrite Hc in Hold. simpl in Hold. rewrite Hold.
  rewrite decide_False by exact Hne.
  unfold join. cbn [fst].
  rewrite !members_insert, decide_False by exact Hne.
  rewrite decide_True by reflexivity.
  rewrite members_leave, decide_True by reflexivity.
  set_solver.
Qed.

(** ** Closed connections stay closed *)

Lemma close_purges eager c (s : PresenceState) :
  registry (close eager c s).1 !! c = None.
Proof.
  unfold close, unregister.
  destruct (registry s !! c) as [conn|] eqn:Hc; [|exact Hc].
  simpl. destruct (c_roomId conn), (c_userId conn); simpl;
    apply lookup_delete_eq.
Qed.

Lemma handle_closed eager c req now (s : PresenceState) :
  registry s !! c = None -> handle eager c req now s = (s, []).
Proof. intros Hc. unfold handle. by rewrite Hc. Qed.

Lemma handleAll_closed eager c reqs (s : PresenceState) :
  registry s !! c = None -> handleAll eager c reqs s = (s, []).
Proof.
  intros Hc. unfold handleAll.
  induction reqs as [|[req now] reqs IH] using rev_ind; [reflexivity|].
  rewrite fold_left_app, IH. simpl. by rewrite handle_closed.
Qed.

(** ** The engine on sample states *)

Lemma join_leave_round_trip_witness :
  ("bob" ∉ members "ops" {["ops" := {["alice"]}]})
  /\ forall r',
       members r'
         (leave true "ops" "bob"
            (join "ops" "bob" {["ops" := {["alice"]}]}).1).1
       = members r' {["ops" := {["alice"]}]}.
Proof.
  assert (Hout : "bob" ∉ members "ops" {["ops" := {["alice"]}]}).
  { unfold members. rewrite lookup_singleton_eq. simpl.
    intros Hin. apply elem_of_singleton in Hin. discriminate. }
  split; [exact Hout|].
  exact (join_leave_round_trip true "ops" "bob" _ Hout).
Defined.

Lemma leave_never_joined_room_witness :
  let s := mkState (identify 0 "alice" "Alice" (register 0 0 ∅)) ∅ in
  room_of 0 s <> Some "ops"
  /\ Forall (fun q : Request * Z => q.1 <> Join "ops") [(Join "eng", 1%Z); (Ping, 2%Z)]
  /\ directory
       (handle true 0 (Leave "ops") 3
          (handleAll true 0 [(Join "eng", 1%Z); (Ping, 2%Z)] s).1).1
     = directory (handleAll true 0 [(Join "eng", 1%Z); (Ping, 2%Z)] s).1
  /\ (handle true 0 (Leave "ops") 3
        (handleAll true 0 [(Join "eng", 1%Z); (Ping, 2%Z)] s).1).2 = [].
Proof.
  cbv zeta.
  assert (Hroom :
    room_of 0 (mkState (identify 0 "alice" "Alice" (register 0 0 ∅)) ∅)
    <> Some "ops").
  { unfold room_of, identify, register. simpl.
    rewrite lookup_alter_eq, lookup_insert_eq. discriminate. }
  assert (Hhistory :
    Forall (fun q : Request * Z => q.1 <> Join "ops")
      [(Join "eng", 1%Z); (Ping, 2%Z)]).
  { repeat constructor; discriminate. }
  split; [exact Hroom|]. split; [exact Hhistory|].
  destruct (leave_never_joined_room true 0 "ops" _ 3 _ Hroom Hhistory)
    as (Hdir & _ & _ & Hout & _).
  split; [exact Hdir | exact Hout].
Defined.

Lemma at_most_one_room_witness :
  let s := mkState (identify 0 "alice" "Alice" (register 0 0 ∅)) ∅ in
  single_room 0 "alice" s
  /\ forall r1 r2,
       "alice" ∈ snap_users (snapshot r1
           (directory (handleAll true 0
              [(Join "ops", 1%Z); (Join "eng", 2%Z); (Leave "ops", 3%Z)] s).1)) ->
       "alice" ∈ snap_users (snapshot r2
           (directory (handleAll true 0
              [(Join "ops", 1%Z); (Join "eng", 2%Z); (Leave "ops", 3%Z)] s).1)) ->
       r1 = r2.
Proof.
  cbv zeta.
  assert (Hs : single_room 0 "alice"
                 (mkState (identify 0 "alice" "Alice" (register 0 0 ∅)) ∅)).
  { split.
    - eexists. split.
      + unfold identify, register. simpl.
        rewrite lookup_alter_eq, lookup_insert_eq. reflexivity.
      + reflexivity.
    - intros r Hin. unfold members in Hin. simpl in Hin.
      rewrite lookup_empty in Hin. simpl in Hin.
      by apply not_elem_of_empty in Hin. }
  split; [exact Hs|].
  exact (proj1 (at_most_one_room true 0 "alice" _ _ Hs)).
Defined.

End BackendFacts.

(** * Who reconnects *)

(** C8.  Recovery from a transport failure is the client's business.  The
    console gives every STOMP client it builds the same reconnect delay,
    5000 ms, whatever the state it is built from, and activates it; no
    client of a mounted console has another delay.  The engine, once a
    connection is closed, has purged it, and nothing that arrives for it
    afterwards changes the engine's state or makes it send anything: a
    closed connection comes back only through a new transport connect. *)
Theorem reconnect_is_client_side :
  (forall r w,
     status r <> Connecting ->
     exists w' client cl,
       connectAndJoin r w = Returned tt w'
       /\ clientRef w' = Some client
       /\ heap w' !! client = Some cl
       /\ reconnectDelay cl = 5000%Z
       /\ active cl = true)
  /\ (forall rev randomId now evs,
        Forall (fun cl => reconnectDelay cl = 5000%Z)
          (heap (run rev evs (mount rev randomId now))))
  /\ (forall eager c s reqs,
        let closed := (Backend.close eager c s).1 in
        Backend.registry closed !! c = None
        /\ Backend.handleAll eager c reqs closed = (closed, [])).
Proof.
  split.
  { intros r w Hstatus.
    destruct (connectAndJoin_installs r w Hstatus)
      as (w' & Hrun & Href & Hheap & _).
    exists w', (length (heap w)),
      {| reconnectDelay := 5000; render := r; active := true; connected := false |}.
    by repeat split. }
  split.
  { intros rev randomId now evs.
    pose proof (Sound_reachable rev randomId now evs) as [_ _ Hheap _].
    eapply Forall_impl; [exact Hheap|]. by intros cl [_ Hcl]. }
  intros eager c s reqs. cbv zeta.
  pose proof (BackendFacts.close_purges eager c s) as Hclosed.
  split; [exact Hclosed|].
  by apply BackendFacts.handleAll_closed.
Qed.

Lemma reconnect_is_client_side_witness :
  status (ui offlineWorld) <> Connecting
  /\ exists w' client cl,
       connectAndJoin (ui offlineWorld) offlineWorld = Returned tt w'
       /\ clientRef w' = Some client
       /\ heap w' !! client = Some cl
       /\ reconnectDelay cl = 5000%Z
       /\ active cl = true.
Proof.
  split; [discriminate|].
  apply (proj1 reconnect_is_client_side (ui offlineWorld) offlineWorld).
  discriminate.
Defined.

(** * Properties of the rendering helpers *)

Section HashCode.
Local Open Scope Z_scope.

Lemma ToInt32_range z : -2147483648 <= ToInt32 z < 2147483648.
Proof.
  unfold ToInt32.
  pose proof (Z.mod_pos_bound (z + 2147483648) 4294967296 eq_refl). lia.
Qed.

Lemma ToInt32_eqm a b :
  (a - b) mod 4294967296 = 0 -> ToInt32 a = ToInt32 b.
Proof.
  intros Hab. unfold ToInt32. f_equal.
  apply Z.mod_divide in Hab; [|lia]. destruct Hab as [k Hk].
  replace (a + 2147483648) with (b + 2147483648 + k * 4294967296) by lia.
  apply Z_mod_plus_full.
Qed.

Lemma ToInt32_mod z : (ToInt32 z - z) mod 4294967296 = 0.
Proof.
  unfold ToInt32.
  rewrite (Z.mod_eq (z + 2147483648) 4294967296) by lia.
  replace (z + 2147483648
           - 4294967296 * ((z + 2147483648) / 4294967296)
           - 2147483648 - z)
    with ((- ((z + 2147483648) / 4294967296)) * 4294967296) by lia.
  apply Z_mod_mult.
Qed.

Lemma ToInt32_idem z : ToInt32 (ToInt32 z) = ToInt32 z.
Proof. apply ToInt32_eqm, ToInt32_mod. Qed.

(** The shift-and-subtract step is multiplication by 31, modulo 2^32. *)
Lemma hashCode_step_31 hash code :
  hashCode_step hash code = ToInt32 (31 * hash + code).
Proof.
  unfold hashCode_step, shiftLeft5. apply ToInt32_eqm.
  rewrite Z.shiftl_mul_pow2 by lia.
  pose proof (ToInt32_mod (ToInt32 hash * 2 ^ 5)) as H1.
  pose proof (ToInt32_mod hash) as H2.
  apply Z.mod_divide in H1; [|lia]. destruct H1 as [k1 Hk1].
  apply Z.mod_divide in H2; [|lia]. destruct H2 as [k2 Hk2].
  apply Z.mod_divide; [lia|]. exists (k1 + 32 * k2).
  change (2 ^ 5) with 32 in *. lia.
Qed.

Lemma hashCode_step_wrap hash code :
  hashCode_step (ToInt32 hash) code = ToInt32 (31 * hash + code).
Proof.
  rewrite hashCode_step_31. apply ToInt32_eqm.
  pose proof (ToInt32_mod hash) as H.
  apply Z.mod_divide in H; [|lia]. destruct H as [k Hk].
  apply Z.mod_divide; [lia|]. exists (31 * k). lia.
Qed.

Lemma hashCode_fold input h :
  fold_left hashCode_step input (ToInt32 h) = ToInt32 (poly31 input h).
Proof.
  revert h. induction input as [|code input IH]; intros h; [reflexivity|].
  simpl. rewrite hashCode_step_wrap. apply IH.
Qed.

(** X1. [hashCode] is the polynomial hash with multiplier 31 wrapped to a
    signed 32-bit integer: it always lies in [-2^31, 2^31), appending a
    character [c] to the input takes the hash [h] to [31 * h + c] wrapped,
    and the whole hash is [s[0]*31^(n-1) + ... + s[n-1]] wrapped. *)
Theorem hashCode_polynomial input code :
  -2147483648 <= hashCode input < 2147483648
  /\ hashCode (input ++ [code]) = ToInt32 (31 * hashCode input + code)
  /\ hashCode input = ToInt32 (poly31 input 0).
Proof.
  assert (Hpoly : forall l, hashCode l = ToInt32 (poly31 l 0)).
  { intros l. unfold hashCode. change 0 with (ToInt32 0) at 1.
    apply hashCode_fold. }
  split; [rewrite Hpoly; apply ToInt32_range|].
  split; [|apply Hpoly].
  unfold hashCode. rewrite fold_left_app. simpl. apply hashCode_step_31.
Qed.

(** X2. The two hues [avatar] puts in the gradient are valid hue angles,
    in [0, 360), for every user, also one without [userId] and [username],
    and also when the hash is the most negative 32-bit integer; and two
    records with the same [userId] get the same hues, whatever their
    [username]. *)
Theorem avatar_hues_in_range user :
  0 <= avatarHue user < 360
  /\ 0 <= avatarHue2 user < 360
  /\ (forall other id,
        pu_userId user = Some id -> pu_userId other = Some id ->
        avatarHue other = avatarHue user /\ avatarHue2 other = avatarHue2 user).
Proof.
  assert (H1 : 0 <= avatarHue user < 360).
  { unfold avatarHue. apply Z.rem_bound_pos; lia. }
  split; [exact H1|]. split.
  { unfold avatarHue2. apply Z.rem_bound_pos; lia. }
  intros other id Hu Ho.
  assert (Hkey : avatarKey other = avatarKey user).
  { unfold avatarKey. by rewrite Hu, Ho. }
  unfold avatarHue2, avatarHue. by rewrite Hkey.
Qed.

Lemma avatar_hues_in_range_witness :
  pu_userId {| pu_userId := Some "a1b2c3d4"; pu_username := Some "Nova" |}
  = Some "a1b2c3d4"%string
  /\ avatarHue {| pu_userId := Some "a1b2c3d4"; pu_username := None |}
     = avatarHue {| pu_userId := Some "a1b2c3d4"; pu_username := Some "Nova" |}.
Proof.
  split; [reflexivity|].
  exact (proj1 (proj2 (proj2 (avatar_hues_in_range
           {| pu_userId := Some "a1b2c3d4"; pu_username := Some "Nova" |}))
           {| pu_userId := Some "a1b2c3d4"; pu_username := None |}
           "a1b2c3d4"%string eq_refl eq_refl)).
Defined.

End HashCode.

(** ** [formatRelative] *)

Section FormatRelative.
Local Open Scope Z_scope.
Variable getTime : string -> option Z.
Variable toLocaleDateString : option Z -> string.

Lemma Math_round_div_lt a b n :
  0 < b -> (Math_round_div a b < n <-> 2 * a < (2 * n - 1) * b).
Proof.
  intros Hb. unfold Math_round_div.
  split; intros H.
  - apply Z.nle_gt. intros Hle. apply Z.nle_gt in H. apply H.
    apply Z.div_le_lower_bound; lia.
  - apply Z.div_lt_upper_bound; lia.
Qed.

(** X3. For a timestamp that parses, [formatRelative] picks its label by the
    age [now - t] in milliseconds: under 30 s, and for any time in the
    future, "just now"; from 30 s to under 59.5 min, "Nm ago" with N from 1
    to 59; from there to under 23 h 29.5 min, "Nh ago" with N from 1 to 23;
    from there on the locale date.  So "0m ago", "60m ago" and "24h ago" are
    never shown. *)
Theorem formatRelative_labels now v t :
  v <> ""%string ->
  getTime v = Some t ->
  let label := formatRelative getTime toLocaleDateString now (Some v) in
  (now - t < 30000 -> label = "just now"%string)
  /\ (30000 <= now - t < 3570000 ->
      exists n, 1 <= n <= 59 /\ label = (pretty n +:+ "m ago")%string)
  /\ (3570000 <= now - t < 84570000 ->
      exists n, 1 <= n <= 23 /\ label = (pretty n +:+ "h ago")%string)
  /\ (84570000 <= now - t -> label = toLocaleDateString (Some t)).
Proof.
  intros Hv Ht. cbv zeta. unfold formatRelative.
  apply String.eqb_neq in Hv. rewrite Hv, Ht.
  set (mins := Math_round_div (now - t) 60000).
  set (hours := Math_round_div mins 60).
  assert (Hm1 : mins < 1 <-> now - t < 30000).
  { unfold mins. rewrite Math_round_div_lt by lia. lia. }
  assert (Hm60 : mins < 60 <-> now - t < 3570000).
  { unfold mins. rewrite Math_round_div_lt by lia. lia. }
  assert (Hm1410 : mins < 1410 <-> now - t < 84570000).
  { unfold mins. rewrite Math_round_div_lt by lia. lia. }
  assert (Hh24 : hours < 24 <-> mins < 1410).
  { unfold hours. rewrite Math_round_div_lt by lia. lia. }
  assert (Hh1 : hours < 1 <-> mins < 30).
  { unfold hours. rewrite Math_round_div_lt by lia. lia. }
  repeat split.
  - intros Hd. rewrite (proj2 (Z.ltb_lt _ _)) by lia. reflexivity.
  - intros Hd. exists mins.
    rewrite (proj2 (Z.ltb_ge _ _)) by lia.
    rewrite (proj2 (Z.ltb_lt _ _)) by lia. split; [lia|reflexivity].
  - intros Hd. exists hours.
    rewrite (proj2 (Z.ltb_ge mins 1)) by lia.
    rewrite (proj2 (Z.ltb_ge mins 60)) by lia.
    rewrite (proj2 (Z.ltb_lt hours 24)) by lia. split; [lia|reflexivity].
  - intros Hd.
    rewrite (proj2 (Z.ltb_ge mins 1)) by lia.
    rewrite (proj2 (Z.ltb_ge mins 60)) by lia.
    rewrite (proj2 (Z.ltb_ge hours 24)) by lia. reflexivity.
Qed.

(** What is shown when there is nothing to format: a dash for a missing or
    empty value, and the locale's rendering of an invalid date for a value
    that does not parse. *)
Lemma formatRelative_no_time now v :
  formatRelative getTime toLocaleDateString now None = "—"%string
  /\ formatRelative getTime toLocaleDateString now (Some ""%string) = "—"%string
  /\ (v <> ""%string -> getTime v = None ->
      formatRelative getTime toLocaleDateString now (Some v)
      = toLocaleDateString None).
Proof.
  split; [reflexivity|]. split; [reflexivity|].
  intros Hv Ht. unfold formatRelative.
  apply String.eqb_neq in Hv. by rewrite Hv, Ht.
Qed.

End FormatRelative.

Lemma formatRelative_labels_witness :
  "2024-05-01T10:00:00.000Z"%string <> ""%string
  /\ (fun _ : string => Some 1714557600000%Z) "2024-05-01T10:00:00.000Z"%string
     = Some 1714557600000%Z
  /\ formatRelative (fun _ => Some 1714557600000%Z) (fun _ => "1/5/2024"%string)
       1714557610000%Z (Some "2024-05-01T10:00:00.000Z"%string)
     = "just now"%string.
Proof.
  split; [discriminate|]. split; [reflexivity|].
  apply (formatRelative_labels (fun _ => Some 1714557600000%Z)
           (fun _ => "1/5/2024"%string) 1714557610000%Z
           "2024-05-01T10:00:00.000Z"%string 1714557600000%Z);
    [discriminate | reflexivity | lia].
Defined.

(** * More properties of the handlers *)

(** X4. In every world the mounted console can reach, at most one STOMP
    client is active, and it is the one [clientRef] holds: [connectAndJoin]
    deactivates the client it replaces, and [disconnect] the one it drops. *)
Theorem one_active_client rev randomId start evs c1 c2 cl1 cl2 :
  let w := run rev evs (mount rev randomId start) in
  heap w !! c1 = Some cl1 -> active cl1 = true ->
  heap w !! c2 = Some cl2 -> active cl2 = true ->
  c1 = c2 /\ clientRef w = Some c1.
Proof.
  intros w H1 A1 H2 A2.
  pose proof (Owned_reachable rev randomId start evs c1 cl1 H1 A1) as R1.
  pose proof (Owned_reachable rev randomId start evs c2 cl2 H2 A2) as R2.
  fold w in R1, R2. split; [congruence | exact R1].
Qed.

Lemma one_active_client_witness :
  length (heap retriedWorld) = 2
  /\ (active <$> heap retriedWorld) = [false; true]
  /\ clientRef retriedWorld = Some 1.
Proof.
  split; [reflexivity|]. split; [reflexivity|].
  exact (proj2 (one_active_client PageTsx "a1b2c3d4" 0
                  [ClickConnect; SocketError 0; ClickConnect] 1 1 _ _
                  eq_refl eq_refl eq_refl eq_refl)).
Defined.

Lemma published_app l1 l2 : published (l1 ++ l2) = published l1 ++ published l2.
Proof. unfold published. apply omap_app. Qed.

(** X5. [disconnect] can be repeated without effect: a second call changes
    nothing at all.  After it both refs are [null], the status is
    disconnected and the room panel is empty, while the activity log, the
    user list, the stats and the error stay; it publishes no frame, and
    [sendMessage] is refused until a new client is connected. *)
Theorem disconnect_idempotent_and_silent w r destination body :
  let w1 := world_of (disconnect w) in
  world_of (disconnect w1) = w1
  /\ clientRef w1 = None /\ roomSubscriptionRef w1 = None
  /\ status (ui w1) = Disconnected /\ presence (ui w1) = None
  /\ logs (ui w1) = logs (ui w) /\ onlineUsers (ui w1) = onlineUsers (ui w)
  /\ stats (ui w1) = stats (ui w) /\ error (ui w1) = error (ui w)
  /\ published (wire w1) = published (wire w)
  /\ canSend w1 = false
  /\ wire (world_of (sendMessage r destination body w1)) = wire w1.
Proof.
  cbv zeta.
  unfold disconnect, bind, modify, ret, setStatus, setPresence,
    Stomp.unsubscribe, Stomp.deactivate, canSend, sendMessage, setError.
  destruct (roomSubscriptionRef w) as [sub|]; cbn;
    destruct (clientRef w) as [client|]; cbn;
    rewrite ?published_app; cbn; rewrite ?app_nil_r; by repeat split.
Qed.

(** X6. [sendPing] stamps [lastPing] with the current time whether or not
    the ping could be sent: with no connected client it publishes nothing,
    sets the error, and still records the time. *)
Theorem sendPing_always_stamps r now w :
  let o := sendPing r now w in
  returned o = true
  /\ lastPing (ui (world_of o)) = Some now
  /\ wire (world_of o) = wire w ++ sentBy w "/app/ping" (frameOf r PING)
  /\ error (ui (world_of o))
     = if canSend w then error (ui w)
       else Some "Connect first to send messages.".
Proof.
  cbv zeta.
  unfold sendPing, bind, sendMessage, setLastPing, setError, modify,
    Stomp.publish, sentBy, canSend.
  destruct (clientRef w) as [client|]; cbn;
    [destruct (Stomp.is_connected client w) eqn:Hconn; cbn; rewrite ?Hconn|];
    cbn; rewrite ?app_nil_r; by repeat split.
Qed.

(** X7. [leaveRoom] empties the room panel and logs "Left room ..." whether
    or not the LEAVE frame could be sent, and it leaves the room-topic
    subscription open: the wire gets the LEAVE frame at most, and
    [roomSubscriptionRef], [clientRef] and the status are untouched. *)
Theorem leaveRoom_keeps_subscription r now w :
  let o := leaveRoom r now w in
  returned o = true
  /\ wire (world_of o) = wire w ++ sentBy w "/app/leave" (frameOf r LEAVE)
  /\ roomSubscriptionRef (world_of o) = roomSubscriptionRef w
  /\ clientRef (world_of o) = clientRef w
  /\ status (ui (world_of o)) = status (ui w)
  /\ presence (ui (world_of o)) = None
  /\ head (logs (ui (world_of o)))
     = Some {| log_content := "Left room " +:+ roomId r;
               log_roomId := None; log_timestamp := now |}.
Proof.
  cbv zeta.
  unfold leaveRoom, bind, sendMessage, setPresence, setError, addLog, setLogs,
    modify, Stomp.publish, sentBy.
  destruct (clientRef w) as [client|] eqn:Href; cbn;
    [destruct (Stomp.is_connected client w) eqn:Hconn; cbn; rewrite ?Hconn|];
    cbn; rewrite ?app_nil_r; by repeat split.
Qed.


(** X9. A message whose [data] is missing or [null] is ignored on the
    room-presence and online-users queues, where the panel and the list
    keep what they show, but not on the system-stats queue, where it
    clears the stats. *)
Theorem message_without_data payload w :
  no_data payload ->
  world_of (onRoomPresenceQueue payload w) = w
  /\ world_of (onOnlineUsersQueue payload w) = w
  /\ stats (ui (world_of (onSystemStatsQueue payload w))) = None.
Proof.
  unfold no_data, onRoomPresenceQueue, onOnlineUsersQueue, onSystemStatsQueue.
  intros Hdata. rewrite Hdata.
  destruct (Wire.data payload) as [| |[]]; try discriminate; by repeat split.
Qed.

Lemma message_without_data_witness :
  no_data (Wire.only_type SYSTEM)
  /\ world_of (onRoomPresenceQueue (Wire.only_type SYSTEM) liveWorld) = liveWorld
  /\ world_of (onOnlineUsersQueue (Wire.only_type SYSTEM) liveWorld) = liveWorld
  /\ stats (ui (world_of (onSystemStatsQueue (Wire.only_type SYSTEM) liveWorld)))
     = None.
Proof.
  split; [reflexivity|].
  exact (message_without_data (Wire.only_type SYSTEM) liveWorld eq_refl).
Defined.

(** The run of [connectAndJoin] when no attempt is in progress. *)
Lemma connectAndJoin_run r w :
  status r <> Connecting ->
  exists w',
    connectAndJoin r w = Returned tt w'
    /\ wire w' = wire w ++ reconnectRequests w
    /\ status (ui w') = Connecting
    /\ error (ui w') = None
    /\ presence (ui w') = None
    /\ clientRef w' = Some (length (heap w)).
Proof.
  intros Hstatus.
  assert (Hgo : connectAndJoin r w
    = (disconnect;; setError None;; setStatus Connecting;;
       client <- Stomp.new_Client 5000 r;;
       Stomp.activate client;;
       modify (with_clientRef (Some client))) w).
  { unfold connectAndJoin. destruct (status r); congruence. }
  rewrite Hgo.
  unfold disconnect, bind, modify, ret, setStatus, setPresence, setError,
    Stomp.unsubscribe, Stomp.deactivate, Stomp.new_Client, Stomp.activate,
    reconnectRequests, closePrevious.
  destruct (roomSubscriptionRef w) as [sub|]; cbn;
    destruct (clientRef w) as [client|]; cbn;
    eexists; (split; [reflexivity|]); cbn;
    rewrite ?length_alter, <- ?app_assoc; by repeat split.
Qed.

(** X10. Pressing the connect button while an attempt is in progress does
    nothing, so two presses in a row are one.  A press that goes ahead
    first closes the room subscription and deactivates the client held so
    far, then activates the new client, and leaves the status at
    connecting with the error and the room panel cleared. *)
Theorem connect_twice_is_once rev w :
  step rev ClickConnect (step rev ClickConnect w) = step rev ClickConnect w
  /\ (status (ui w) = Connecting -> step rev ClickConnect w = w)
  /\ (status (ui w) <> Connecting ->
      let w' := step rev ClickConnect w in
      wire w' = wire w ++ reconnectRequests w
      /\ status (ui w') = Connecting
      /\ error (ui w') = None
      /\ presence (ui w') = None).
Proof.
  assert (Hbusy : forall w0,
    status (ui w0) = Connecting -> step rev ClickConnect w0 = w0).
  { intros w0 Hs. unfold step. simpl. unfold connectAndJoin. by rewrite Hs. }
  assert (Hgo : forall w0,
    status (ui w0) <> Connecting ->
    let w' := step rev ClickConnect w0 in
    wire w' = wire w0 ++ reconnectRequests w0
    /\ status (ui w') = Connecting
    /\ error (ui w') = None
    /\ presence (ui w') = None).
  { intros w0 Hs. cbv zeta. unfold step. simpl.
    destruct (connectAndJoin_run (ui w0) w0 Hs) as (w' & -> & H1 & H2 & H3 & H4 & _).
    by repeat split. }
  split; [|split; [apply Hbusy | apply Hgo]].
  destruct (status (ui w)) eqn:Hs.
  - apply Hbusy. by destruct (Hgo w ltac:(congruence)) as (_ & H2 & _).
  - rewrite (Hbusy w Hs). exact (Hbusy w Hs).
  - apply Hbusy. by destruct (Hgo w ltac:(congruence)) as (_ & H2 & _).
Qed.

Lemma connect_twice_is_once_witness :
  status (ui liveWorld) <> Connecting
  /\ wire (step PageTsx ClickConnect liveWorld)
     = wire liveWorld
       ++ [Unsubscribe {| sub_client := 0; sub_id := 3 |}; Deactivate 0;
           Activate 1].
Proof.
  split; [discriminate|].
  exact (proj1 (proj2 (proj2 (connect_twice_is_once PageTsx liveWorld))
                  ltac:(discriminate))).
Defined.



